(** * HTTPClient: a shallow embedding of the request orchestrator

    The development follows the TypeScript sources file by file:
    [constants.ts], [utils.ts], [classes/HTTPResponse.ts],
    [classes/RESTError.ts] and [classes/HTTPClient.ts].

    JavaScript values are modelled as follows.
    - optional fields ([x?: T]) are [option T], [None] standing for
      [undefined];
    - strings are texts in UTF-8 ([string], a list of bytes);
    - a [number] that the client computes with (the retry budget, the
      result of [Number.parseInt]) is a double ([JsNumber]); a number
      that it only passes along (a status code, a number in a JSON
      value or in a plain object) is an integer ([Z]);
    - header names and values are taken to be well formed: [Headers]
      neither rejects nor normalises them;
    - the body of a response is the outcome of reading it: its text,
      or the error that the read throws;
    - a value given as a JSON body is JSON data, or a value that
      [JSON.stringify] maps to [undefined];
    - the functions of the platform and of other packages (the
      error parsers, the camelizer, the caller's challenge handler)
      return or throw;
    - a promise is taken at its outcome: an [await]ed value is the
      value, a rejection is a thrown error;
    - a [Headers] collection is a finite map from lower-cased names to
      values;
    - exceptions are an explicit completion type;
    - objects that the client may mutate through an alias (the caller's
      [URLSearchParams]) live in an explicit heap;
    - the loop of [httpRequest] has no bound, so it takes fuel: one
      unit per dispatch. *)

From Stdlib Require Import ZArith String Ascii List Bool Lia DecimalString DecimalPos.
From stdpp Require Import base option list gmap strings.

Import ListNotations.
Set Warnings "-register-all".
Local Open Scope string_scope.

(** ** JavaScript preliminaries *)

Module Js.

(** Primitive values found in [Record<string, unknown>] objects. *)
Inductive JsValue :=
| VUndefined
| VNull
| VBool (b : bool)
| VNumber (n : Z)
| VString (s : string).

(** JSON values, as produced by [JSON.parse]. *)
Inductive Json :=
| JNull
| JBool (b : bool)
| JNumber (n : Z)
| JString (s : string)
| JArray (xs : list Json)
| JObject (fields : list (string * Json)).

(** A [number]: an IEEE 754 double, as [NaN], an infinity, or the
    finite value [m * 2^e] with its sign ([0 <= m]; the zero with the
    sign is [-0]). The doubles are the values with [m < 2^53] and
    [-1074 <= e <= 971]; a value has several such representations. *)
Inductive JsNumber :=
| NaN
| Infinite (negative : bool)
| Double (negative : bool) (m e : Z).

(** The double of an integer of a size up to [2^53]. *)
Definition Num (n : Z) : JsNumber := Double (n <? 0)%Z (Z.abs n) 0.

(** The double nearest to [m * 2^e], ties going to the even
    mantissa, for [0 <= m] and [-1074 <= e]. *)
Definition round53 (negative : bool) (m e : Z) : JsNumber :=
  if (m <? 2 ^ 53)%Z then Double negative m e
  else
    let k := (Z.log2 m - 52)%Z in
    let q := Z.shiftr m k in
    let r := (m - Z.shiftl q k)%Z in
    let half := Z.shiftl 1 (k - 1) in
    let q := if (half <? r)%Z || ((r =? half)%Z && Z.odd q) then (q + 1)%Z else q in
    let '(q, k) := if (q =? 2 ^ 53)%Z then ((2 ^ 52)%Z, (k + 1)%Z) else (q, k) in
    if (971 <? e + k)%Z then Infinite negative else Double negative q (e + k).

(** Truthiness of a [number]. *)
Definition truthy_number (x : JsNumber) : bool :=
  match x with
  | NaN => false
  | Infinite _ => true
  | Double _ m _ => negb (m =? 0)%Z
  end.

(** [x > 0]. *)
Definition is_positive (x : JsNumber) : bool :=
  match x with
  | NaN => false
  | Infinite negative => negb negative
  | Double negative m _ => negb negative && (0 <? m)%Z
  end.

(** [x - 1], the value that [x--] leaves in [x]: the exact difference
    is [z * 2^e'], which is then rounded. *)
Definition decrement (x : JsNumber) : JsNumber :=
  match x with
  | NaN => NaN
  | Infinite negative => Infinite negative
  | Double negative m e =>
      let e' := Z.min e 0 in
      let z := ((if negative then - m else m) * 2 ^ (e - e') - 2 ^ (- e'))%Z in
      if (z =? 0)%Z then Double false 0 0
      else round53 (z <? 0)%Z (Z.abs z) e'
  end.

Definition Z_ToString (n : Z) : string := NilZero.string_of_int (Z.to_int n).

(** [String(v)]. *)
Definition ToString (v : JsValue) : string :=
  match v with
  | VUndefined => "undefined"
  | VNull => "null"
  | VBool true => "true"
  | VBool false => "false"
  | VNumber n => Z_ToString n
  | VString s => s
  end.

(** [String(v)] on a JSON value that is not an array. *)
Definition Json_ToString (v : Json) : string :=
  match v with
  | JNull => "null"
  | JBool true => "true"
  | JBool false => "false"
  | JNumber n => Z_ToString n
  | JString s => s
  | JArray _ => EmptyString
  | JObject _ => "[object Object]"
  end.

(** Truthiness of [string | undefined]. *)
Definition truthy (o : option string) : bool :=
  match o with
  | Some (String _ _) => true
  | _ => false
  end.

(** Truthiness of [boolean | undefined]. *)
Definition truthy_bool (o : option bool) : bool := default false o.

(** [s.startsWith(p)]. *)
Definition startsWith (s p : string) : bool := String.prefix p s.

(** [s.includes(sub)]. *)
Fixpoint includes (s sub : string) : bool :=
  String.prefix sub s ||
  match s with
  | EmptyString => false
  | String _ s' => includes s' sub
  end.

Fixpoint drop (n : nat) (s : string) : string :=
  match n, s with
  | S n', String _ s' => drop n' s'
  | _, _ => s
  end.

(** The number of bytes of the white space character or line
    terminator that a text opens with, and 0 when it opens with none:
    U+0009 to U+000D and U+0020 (one byte), U+00A0 (two bytes), U+1680,
    U+2000 to U+200A, U+2028, U+2029, U+202F, U+205F, U+3000 and
    U+FEFF (three bytes). *)
Definition white_space_width (s : string) : nat :=
  match s with
  | String a r =>
      let a := nat_of_ascii a in
      if ((a =? 32) || ((9 <=? a) && (a <=? 13)))%nat then 1
      else if (a <? 194)%nat then 0
      else
        match r with
        | String b r =>
            let b := nat_of_ascii b in
            if ((a =? 194) && (b =? 160))%nat then 2
            else
              match r with
              | String c _ =>
                  let c := nat_of_ascii c in
                  if ((a =? 225) && (b =? 154) && (c =? 128))%nat then 3
                  else if ((a =? 226) && (b =? 128)
                           && (((128 <=? c) && (c <=? 138)) || (c =? 168) || (c =? 169)
                               || (c =? 175)))%nat then 3
                  else if ((a =? 226) && (b =? 129) && (c =? 159))%nat then 3
                  else if ((a =? 227) && (b =? 128) && (c =? 128))%nat then 3
                  else if ((a =? 239) && (b =? 187) && (c =? 191))%nat then 3
                  else 0
              | EmptyString => 0
              end
        | EmptyString => 0
        end
  | EmptyString => 0
  end.

Fixpoint skip_white_space (fuel : nat) (s : string) : string :=
  match fuel with
  | S fuel =>
      match white_space_width s with
      | O => s
      | w => skip_white_space fuel (drop w s)
      end
  | O => s
  end.

(** [s.trimStart()]. *)
Definition trimStart (s : string) : string := skip_white_space (String.length s) s.

(** [s.trimEnd()]: the text is cut where only white space follows. *)
Fixpoint trimEnd (s : string) : string :=
  match s with
  | String c s' =>
      match trimStart s with
      | EmptyString => EmptyString
      | _ => String c (trimEnd s')
      end
  | EmptyString => EmptyString
  end.

(** [s.trim()]. *)
Definition trim (s : string) : string := trimEnd (trimStart s).

Definition digit_value (c : ascii) : option Z :=
  let n := nat_of_ascii c in
  if ((48 <=? n) && (n <=? 57))%nat then Some (Z.of_nat (n - 48)) else None.

(** The value of the longest prefix of decimal digits, if it is not
    empty. *)
Fixpoint digits_prefix (s : string) (acc : option Z) : option Z :=
  match s with
  | String c s' =>
      match digit_value c with
      | Some d => digits_prefix s' (Some (10 * default 0 acc + d))
      | None => acc
      end
  | EmptyString => acc
  end%Z.

(** Whether a numeral opens with the sign minus, and the rest of it
    after the sign. *)
Definition split_sign (s : string) : bool * string :=
  match s with
  | String c r =>
      if Ascii.eqb c "-" then (true, r)
      else if Ascii.eqb c "+" then (false, r)
      else (false, s)
  | EmptyString => (false, s)
  end.

(** [Number.parseInt(s, 10)]: leading white space is skipped, a sign
    is read, then the longest prefix of digits; the result is [NaN]
    when there is no digit, and otherwise the double nearest to the
    integer that the digits denote (all of them: the digits after the
    20th, which an implementation may take for 0, are kept). *)
Definition parseInt10 (s : string) : JsNumber :=
  let '(negative, s2) := split_sign (trimStart s) in
  match digits_prefix s2 None with
  | None => NaN
  | Some n => round53 negative n 0
  end.

(** [ToString] of a [string | null] that the source casts to [string]. *)
Definition nullable_ToString (o : option string) : string := default "null" o.

Definition lower_ascii (c : ascii) : ascii :=
  let n := nat_of_ascii c in
  if ((65 <=? n) && (n <=? 90))%nat then ascii_of_nat (n + 32) else c.

Fixpoint toLowerCase (s : string) : string :=
  match s with
  | String c s' => String (lower_ascii c) (toLowerCase s')
  | EmptyString => EmptyString
  end.

End Js.
Import Js.

(** ** [Headers]

    A header collection maps lower-cased names to values; a header that
    was appended several times holds the values joined by a comma. *)

Abbreviation Headers := (gmap string string).

Module Headers.

Definition has (h : Headers) (name : string) : bool :=
  bool_decide (is_Some (h !! toLowerCase name)).

Definition get (h : Headers) (name : string) : option string :=
  h !! toLowerCase name.

Definition set (h : Headers) (name value : string) : Headers :=
  <[toLowerCase name := value]> h.

Definition append (h : Headers) (name value : string) : Headers :=
  match h !! toLowerCase name with
  | Some old => <[toLowerCase name := old ++ ", " ++ value]> h
  | None => <[toLowerCase name := value]> h
  end.

(** [new Headers(record)]. *)
Definition of_record (r : list (string * JsValue)) : Headers :=
  fold_left (fun h '(k, v) => append h k (ToString v)) r ∅.

Definition of_list (r : list (string * string)) : Headers :=
  fold_left (fun h '(k, v) => append h k v) r ∅.

End Headers.

(** ** [constants.ts] *)

Definition RETRY_ERROR_CODES : list Z := [500; 502; 503; 504]%Z.
Definition DEFAULT_ACCOUNT_ID : string := "default".
Definition CSRF_TOKEN_HEADER_NAME : string := "x-csrf-token".
Definition OAUTH_AUTHORIZATION_HEADER_NAME : string := "authorization".
Definition CLOUD_API_KEY_HEADER_NAME : string := "x-api-key".
Definition USER_AGENT_HEADER_NAME : string := "user-agent".
Definition RATELIMIT_LIMIT_HEADER : string := "x-ratelimit-limit".
Definition RATELIMIT_REMAINING_HEADER : string := "x-ratelimit-remaining".
Definition RATELIMIT_RESET_HEADER : string := "x-ratelimit-reset".

(** [s.replace(REMOVE_PROTOCOL_REGEX, "")] with
    [REMOVE_PROTOCOL_REGEX = /^https?:\/\//]. *)
Definition remove_protocol (s : string) : string :=
  if startsWith s "https://" then drop 8 s
  else if startsWith s "http://" then drop 7 s
  else s.

(** [RETRY_ERROR_CODES.includes(code)]. *)
Definition is_retry_code (code : Z) : bool :=
  bool_decide (code ∈ RETRY_ERROR_CODES).

(** ** [utils.ts] *)

(** [filterObject]: an object is the list of its enumerable
    properties in the order of [for ... in]. The new object gets the
    properties whose value is neither [null] nor [undefined], in this
    order, but for the name [__proto__]: the assignment
    [newObj["__proto__"] = v] goes to the setter that [{}] inherits,
    which ignores a primitive [v]. *)
Definition filterObject (obj : list (string * JsValue)) : list (string * JsValue) :=
  List.filter
    (fun '(k, v) =>
       match v with
       | VNull | VUndefined => false
       | _ => negb (String.eqb k "__proto__")
       end)
    obj.

(** ** Completions

    A call either returns a value or throws. *)

Inductive Completion (E A : Type) :=
| Return (a : A)
| Throw (e : E).
Arguments Return {E A} a.
Arguments Throw {E A} e.

Definition bind {E A B} (c : Completion E A) (k : A -> Completion E B) : Completion E B :=
  match c with
  | Return a => k a
  | Throw e => Throw e
  end.

Notation "'let*' x ':=' c 'in' k" := (bind c (fun x => k))
  (at level 10, x name, c at level 100, k at level 200).

Definition returned {E A} (c : Completion E A) : bool :=
  match c with Return _ => true | Throw _ => false end.

(** Errors thrown by the platform. *)
Inductive NativeError :=
| TypeError (what : string)
| SyntaxError (what : string)
| ReferenceError (what : string)
| NetworkError (what : string).

(** ** Data of [classes/HTTPClient.ts] and [classes/HTTPResponse.ts] *)

Inductive HTTPMethod := GET | POST | PATCH | PUT | DELETE | OPTIONS.

#[global] Instance HTTPMethod_eq_dec : EqDecision HTTPMethod.
Proof. solve_decision. Defined.

Inductive ExpectContentType :=
| ExpectJson
| ExpectJsonWithBigInts
| ExpectText
| ExpectArrayBuffer
| ExpectBlob
| ExpectFormData
| ExpectDom
| ExpectNone.

#[global] Instance ExpectContentType_eq_dec : EqDecision ExpectContentType.
Proof. solve_decision. Defined.

Inductive ErrorHandling := BEDEV1 | BEDEV2 | ErrorHandlingNone.

#[global] Instance ErrorHandling_eq_dec : EqDecision ErrorHandling.
Proof. solve_decision. Defined.

(** [accountToken: string | number]. *)
Inductive AccountToken :=
| AccountString (s : string)
| AccountNumber (n : Z).

#[global] Instance AccountToken_eq_dec : EqDecision AccountToken.
Proof. solve_decision. Defined.

(** [accountToken.toString()], which is also the property key of an
    account token. *)
Definition property_key (a : AccountToken) : string :=
  match a with
  | AccountString s => s
  | AccountNumber n => Z_ToString n
  end.

(** The property key that [accounts[accountToken]] reads or writes;
    the account token is [undefined] when the caller passes none and
    the default is [undefined]. *)
Definition account_key (a : option AccountToken) : string :=
  match a with
  | Some a => property_key a
  | None => "undefined"
  end.

(** Truthiness of [string | number | undefined]. *)
Definition truthy_account (o : option AccountToken) : bool :=
  match o with
  | Some (AccountString s) => truthy (Some s)
  | Some (AccountNumber n) => negb (n =? 0)%Z
  | None => false
  end.

Record FormDataSetRequest := {
  fd_value : string;
  fd_fileName : option string;
}.

(** A [URLSearchParams] object lives in the heap at a location; the
    caller and the client may hold the same location. *)
Abbreviation loc := nat (only parsing).
Abbreviation Params := (list (string * string)).
Abbreviation Heap := (gmap loc Params).

(** The body of a request. A [value: unknown] is JSON data, or a
    value for which [JSON.stringify] returns [undefined] ([None]); for
    the kind unknown it is a body that the transport accepts, or
    [undefined]. *)
Inductive HTTPRequestBodyContent :=
| ContentJson (value : option Json)
| ContentJsonWithBigInts (value : option Json)
| ContentText (value : string)
| ContentFormdata (value : list (string * FormDataSetRequest))
| ContentFile (value : string)
| ContentUrlencoded (value : Params)
| ContentUnknown (value : option string).

(** [search?: Record<string, unknown> | URLSearchParams]. *)
Inductive SearchInit :=
| SearchRecord (r : list (string * JsValue))
| SearchParams (l : loc).

(** [headers?: Record<string, unknown> | Headers]. *)
Inductive HeadersInit :=
| HeadersRecord (r : list (string * JsValue))
| HeadersObject (h : Headers).

Record ParsedChallenge := {
  challengeType : string;
  challengeId : string;
  challengeBase64Metadata : string;
}.

(** [InternalHTTPRequest] and [HTTPRequest] in one record: the object
    spread in [httpRequest] carries the extra fields along. *)
Record Request := {
  method : option HTTPMethod;
  url : string;
  search : option SearchInit;
  headers : option HeadersInit;
  body : option HTTPRequestBodyContent;
  expect : option ExpectContentType;
  includeCredentials : option bool;
  camelizeResponse : option bool;
  cache : option string;
  bypassCORS : option bool;
  accountToken : option AccountToken;
  overrideDeviceType : option string;
  includeCsrf : option bool;
  retries : option JsNumber;
  errorHandling : option ErrorHandling;
  handleChallenge : option (ParsedChallenge -> Completion NativeError (option ParsedChallenge));
}.

(** [{...request, expect: e, headers: h}]. *)
Definition with_expect_headers (request : Request) (e : ExpectContentType) (h : Headers) : Request :=
  {| method := method request; url := url request; search := search request;
     headers := Some (HeadersObject h); body := body request; expect := Some e;
     includeCredentials := includeCredentials request;
     camelizeResponse := camelizeResponse request; cache := cache request;
     bypassCORS := bypassCORS request; accountToken := accountToken request;
     overrideDeviceType := overrideDeviceType request;
     includeCsrf := includeCsrf request; retries := retries request;
     errorHandling := errorHandling request;
     handleChallenge := handleChallenge request |}.

(** The transport's response: the fields of a [Response] that the client
    reads, and the outcome of reading its body to the end, which is
    the text of the body or the error that the readers ([text()],
    [arrayBuffer()], [blob()]) reject with. *)
Module Response.
Record t := {
  ok : bool;
  status : Z;
  statusText : string;
  headers : Headers;
  url : string;
  redirected : bool;
  text : Completion NativeError string;
}.
End Response.

(** A decoded body ([T], in fact [any]). *)
Inductive Body :=
| BodyUndefined
| BodyJson (j : Json)
| BodyText (s : string)
| BodyDocument (html : string)
| BodyArrayBuffer (bytes : string)
| BodyBlob (bytes : string)
| BodyFormData (entries : Params).

Record CamelizeOptions := {
  deep : bool;
  pascalCase : bool;
}.

(** The camelization function of the client's options; it returns a
    value of any kind, or throws. *)
Definition CamelizeObjectFn := Body -> CamelizeOptions -> Completion NativeError Body.

Record Ratelimit := {
  _limit : string;
  remaining : JsNumber;
  reset : JsNumber;
}.

Record HTTPResponseStatus := {
  status_ok : bool;
  status_code : Z;
  status_text : string;
}.

(** A structured error of [parse-roblox-errors]: its enumerable
    properties in order. *)
Definition AnyError := list (string * Json).

(** ** The platform and the external collaborators *)

Module URL.
Record t := {
  protocol : string;
  hostname : string;
  port : string;
  pathname : string;
  searchParams : Params;
  hash : string;
}.
End URL.

(** A body ready for the transport. *)
Inductive Payload :=
| PayloadString (s : string)
| PayloadParams (p : Params)
| PayloadBytes (bytes : string)
| PayloadFormData (entries : list (string * FormDataSetRequest))
| PayloadUnknown (v : string).

Record RequestInit := {
  init_method : HTTPMethod;
  init_headers : Headers;
  init_cache : option string;
  init_body : option Payload;
  init_credentials : option string;
}.

(** A transport function. Its first argument is the number of calls
    made before this one, so that it may answer each attempt
    differently. *)
Definition Fetch := nat -> URL.t -> RequestInit -> Completion NativeError Response.t.

(** [hbaClient.generateBaseHeaders(url, method, includeCredentials, body)]. *)
Definition HBAClient :=
  string -> option HTTPMethod -> option bool -> option Payload -> list (string * string).

(** What the client takes from its environment: the platform's parsers,
    the page it runs in, the global transport, the parsers of
    [parse-roblox-errors], and the constants that the sources import
    from elsewhere. *)
Record Env := {
  (** Imported from [constants.ts], which does not define it: the
      binding is [undefined] unless the environment provides one. *)
  DEFAULT_ACCOUNT_TOKEN : option AccountToken;
  GENERIC_CHALLENGE_TYPE_HEADER : string;
  GENERIC_CHALLENGE_ID_HEADER : string;
  GENERIC_CHALLENGE_METADATA_HEADER : string;
  (** [JSON.parse] and [JSONv2.parse]; [None] when they throw. *)
  JSON_parse : string -> option Json;
  JSONv2_parse : string -> option Json;
  JSON_stringify : Json -> string;
  JSONv2_stringify : Json -> string;
  (** [response.formData()]; [None] when it throws. *)
  Response_formData : Response.t -> option Params;
  (** Whether the global [DOMParser] exists. *)
  DOMParser_defined : bool;
  (** [new URL(s)] and [new URL(s, base)]; [None] when they throw. *)
  URL_parse : string -> option URL.t;
  URL_parse_base : string -> string -> option URL.t;
  location_href : string;
  (** The [data-token] attribute of the page's [csrf-token] element. *)
  document_csrf_token : option string;
  (** The text of a function of [Object.prototype], by its name. *)
  native_function_text : string -> string;
  (** The parsers of structured errors read the body of the response
      and may throw. *)
  parseBEDEV1Error : Response.t -> Completion NativeError (list AnyError);
  parseBEDEV2Error : Response.t -> Completion NativeError (list AnyError);
  parseChallengeHeaders : Headers -> option ParsedChallenge;
  global_fetch : Fetch;
}.

(** [canParseURL] of [utils.ts]. *)
Definition canParseURL (env : Env) (u : string) : bool :=
  bool_decide (is_Some (URL_parse env u)).

(** ** [classes/HTTPResponse.ts] *)

Module HTTPResponse.

Record t := {
  _request : Request;
  _response : Response.t;
  body : Body;
  ratelimit : option Ratelimit;
  status : HTTPResponseStatus;
  headers : Headers;
  url : string;
  redirected : bool;
}.

(** The guard that opens [parseBody]. *)
Definition no_body (request : Request) (response : Response.t) : bool :=
  bool_decide (expect request = Some ExpectNone)
  || bool_decide (Headers.get (Response.headers response) "content-length" = Some "0")
  || bool_decide (Response.status response = 204%Z).

Definition parseBody (env : Env) (request : Request) (response : Response.t)
    (camelizeObject : option CamelizeObjectFn) : Completion NativeError Body :=
  if no_body request response then Return BodyUndefined
  else
    match expect request with
    | Some ExpectJson | None | Some ExpectJsonWithBigInts =>
        let* text := Response.text response in
        let trimmed := trim text in
        let parsed :=
          if bool_decide (expect request = Some ExpectJsonWithBigInts)
          then JSONv2_parse env trimmed
          else JSON_parse env trimmed in
        match parsed with
        | None => Throw (SyntaxError trimmed)
        | Some j =>
            let body := BodyJson j in
            match truthy_bool (camelizeResponse request), camelizeObject with
            | true, Some camelize => camelize body {| pascalCase := false; deep := true |}
            | _, _ => Return body
            end
        end
    | Some ExpectDom =>
        if DOMParser_defined env
        then let* text := Response.text response in Return (BodyDocument text)
        else Throw (ReferenceError "DOMParser")
    | Some ExpectText => let* text := Response.text response in Return (BodyText text)
    | Some ExpectArrayBuffer =>
        let* bytes := Response.text response in Return (BodyArrayBuffer bytes)
    | Some ExpectBlob => let* bytes := Response.text response in Return (BodyBlob bytes)
    | Some ExpectFormData =>
        match Response_formData env response with
        | Some entries => Return (BodyFormData entries)
        | None => Throw (TypeError "formData")
        end
    | Some ExpectNone => Throw (TypeError "clone[request.expect] is not a function")
    end.

(** The constructor. *)
Definition new (request : Request) (response : Response.t) (body : Body)
    (ratelimit : option Ratelimit) : t :=
  {| _request := request;
     _response := response;
     body := body;
     ratelimit := ratelimit;
     status := {| status_ok := Response.ok response;
                  status_code := Response.status response;
                  status_text := Response.statusText response |};
     headers := Response.headers response;
     url := Response.url response;
     redirected := Response.redirected response |}.

Definition init (env : Env) (request : Request) (response : Response.t)
    (ratelimit : option Ratelimit) (camelizeObject : option CamelizeObjectFn)
    : Completion NativeError t :=
  let* body := parseBody env request response camelizeObject in
  Return (new request response body ratelimit).

End HTTPResponse.

(** ** [classes/RESTError.ts] *)

Module RESTError.
Record t := {
  message : string;
  isHttpError : bool;
  errors : option (list AnyError);
  httpCode : option Z;
  response : option HTTPResponse.t;
  ratelimit : option Ratelimit;
}.
End RESTError.

(** What [httpRequest] may throw. *)
Inductive Thrown :=
| Native (e : NativeError)
| Rest (e : RESTError.t).

(** ** [classes/HTTPClient.ts] *)

(** [URLSearchParams.prototype.set] and [FormData.prototype.set]: the
    first entry named [k] takes the value, the other entries named
    [k] go; a new name is added at the end. *)
Fixpoint params_set {V} (k : string) (v : V) (l : list (string * V)) : list (string * V) :=
  match l with
  | [] => [(k, v)]
  | (k', v') :: rest =>
      if String.eqb k' k
      then (k, v) :: List.filter (fun p => negb (String.eqb (fst p) k)) rest
      else (k', v') :: params_set k v rest
  end.

(** The local variable [search] of [formatRequestUrl]: an object that
    the function made itself, or the caller's object. *)
Inductive SearchVar :=
| Fresh (p : Params)
| Shared (l : loc).

Definition search_entries (h : Heap) (s : SearchVar) : Params :=
  match s with
  | Fresh p => p
  | Shared l => default [] (h !! l)
  end.

(** [search.set(k, v)]: on the caller's object the heap changes. *)
Definition search_set (k v : string) (s : SearchVar) (h : Heap) : SearchVar * Heap :=
  match s with
  | Fresh p => (Fresh (params_set k v p), h)
  | Shared l => (Shared l, <[l := params_set k v (default [] (h !! l))]> h)
  end.

Definition LF : string := String (ascii_of_nat 10) EmptyString.
Definition DQUOTE : string := String (ascii_of_nat 34) EmptyString.

Definition HTTPMethod_ToString (m : HTTPMethod) : string :=
  match m with
  | GET => "GET" | POST => "POST" | PATCH => "PATCH"
  | PUT => "PUT" | DELETE => "DELETE" | OPTIONS => "OPTIONS"
  end.

Definition ErrorHandling_ToString (m : ErrorHandling) : string :=
  match m with
  | BEDEV1 => "BEDEV1" | BEDEV2 => "BEDEV2" | ErrorHandlingNone => "none"
  end.

Module HTTPClient.

Record HTTPClientDomains := {
  main : string;
  cdn : string;
}.

Record HTTPClientConstructorOptions := {
  domains : HTTPClientDomains;
  hbaClient : option HBAClient;
  onWebsite : option bool;
  fetch : option Fetch;
  bypassCORSFetch : option Fetch;
  camelizeObject : option CamelizeObjectFn;
  overrideDeviceTypeHeaderName : option string;
  overrideDeviceTypeToUserAgent : option (gmap string string);
  trackingUserAgent : option string;
  trackingSearchParam : option string;
  accountTokenSearchParam : option string;
  isDev : option bool;
}.

(** The field [csrfTokens]. The object [accounts] starts as [{}]: it
    is given by its own properties, each of which may hold
    [undefined], and it inherits the properties of [Object.prototype].
    A token is the value that its promise resolves to. *)
Record CsrfTokens := {
  accounts : gmap string (option string);
  ip : option string;
}.

Definition csrfTokens_init : CsrfTokens := {| accounts := ∅; ip := None |}.

(** The names of the properties of [Object.prototype]. *)
Definition Object_prototype_keys : list string :=
  ["constructor"; "__defineGetter__"; "__defineSetter__"; "hasOwnProperty";
   "__lookupGetter__"; "__lookupSetter__"; "isPrototypeOf"; "propertyIsEnumerable";
   "toString"; "valueOf"; "__proto__"; "toLocaleString"].

(** What a read of a token yields: a string or [undefined], or, for a
    name that [accounts] only inherits, the member of
    [Object.prototype] of this name (the prototype itself for
    [__proto__], a function for the other names). *)
Inductive TokenValue :=
| TokenText (t : option string)
| PrototypeMember (key : string).

(** Truthiness of a token read: an object is truthy. *)
Definition truthy_token (v : TokenValue) : bool :=
  match v with
  | TokenText t => truthy t
  | PrototypeMember _ => true
  end.

(** [accounts[key]]. *)
Definition accounts_get (accounts : gmap string (option string)) (key : string) : TokenValue :=
  match accounts !! key with
  | Some v => TokenText v
  | None =>
      if bool_decide (key ∈ Object_prototype_keys) then PrototypeMember key
      else TokenText None
  end.

(** [accounts[key] = value] for a [value] that is a string or
    [undefined]. The inherited [__proto__] is an accessor whose setter
    ignores such a value; any other name becomes, or is, a property of
    [accounts] itself. *)
Definition accounts_set (accounts : gmap string (option string)) (key : string)
    (value : option string) : gmap string (option string) :=
  if String.eqb key "__proto__" && negb (bool_decide (is_Some (accounts !! key)))
  then accounts
  else <[key := value]> accounts.

(** The mutable state that a call works on: the client's token store,
    the heap of the caller's [URLSearchParams] objects, and the
    requests handed to the transport so far, oldest first. *)
Record State := {
  csrfTokens : CsrfTokens;
  heap : Heap;
  dispatched : list (URL.t * RequestInit);
}.

Definition set_csrfTokens (c : CsrfTokens) (st : State) : State :=
  {| csrfTokens := c; heap := heap st; dispatched := dispatched st |}.

Definition set_heap (h : Heap) (st : State) : State :=
  {| csrfTokens := csrfTokens st; heap := h; dispatched := dispatched st |}.

Definition log_dispatch (u : URL.t) (i : RequestInit) (st : State) : State :=
  {| csrfTokens := csrfTokens st; heap := heap st;
     dispatched := dispatched st ++ [(u, i)] |}.

Section Client.

Variable env : Env.
Variable _options : HTTPClientConstructorOptions.

(** The parameter [accountToken = DEFAULT_ACCOUNT_TOKEN]: the default
    stands in for an argument that is [undefined]. *)
Definition account_or_default (accountToken : option AccountToken) : option AccountToken :=
  match accountToken with
  | Some a => Some a
  | None => DEFAULT_ACCOUNT_TOKEN env
  end.

Definition getCsrfToken (tokens : CsrfTokens) (authorized : option bool)
    (accountToken : option AccountToken) : TokenValue :=
  let authorized := default false authorized in
  let accountToken := account_or_default accountToken in
  let token :=
    if authorized then accounts_get (accounts tokens) (account_key accountToken)
    else TokenText (ip tokens) in
  if bool_decide (accountToken = DEFAULT_ACCOUNT_TOKEN env)
     && authorized && negb (truthy_token token) && truthy_bool (onWebsite _options)
  then
    TokenText (if truthy (document_csrf_token env) then document_csrf_token env else None)
  else token.

Definition setCsrfToken (tokens : CsrfTokens) (value : option string)
    (authorized : option bool) (accountToken : option AccountToken) : CsrfTokens :=
  let accountToken := account_or_default accountToken in
  let accounts' :=
    if truthy_bool authorized
    then accounts_set (accounts tokens) (account_key accountToken) value
    else accounts tokens in
  {| accounts := accounts'; ip := value |}.

Definition handleRequestHeaders (request : Request) (contentType : option string)
    (newBody : option Payload) : Headers :=
  let newHeaders :=
    match headers request with
    | None => ∅
    | Some (HeadersObject h) => h
    | Some (HeadersRecord r) => Headers.of_record (filterObject r)
    end in
  let newHeaders :=
    if truthy (overrideDeviceType request) then
      match overrideDeviceTypeToUserAgent _options with
      | Some table =>
          if negb (truthy (overrideDeviceTypeHeaderName _options)) then
            Headers.set newHeaders USER_AGENT_HEADER_NAME
              (default "undefined" (table !! default EmptyString (overrideDeviceType request)))
          else newHeaders
      | None => newHeaders
      end
    else if truthy (trackingUserAgent _options)
            && negb (truthy (trackingSearchParam _options)) then
      Headers.set newHeaders USER_AGENT_HEADER_NAME
        (default EmptyString (trackingUserAgent _options))
    else newHeaders in
  let newHeaders :=
    match hbaClient _options with
    | Some generateBaseHeaders =>
        fold_left (fun h '(key, value) => Headers.set h key value)
          (generateBaseHeaders (url request) (method request)
             (includeCredentials request) newBody)
          newHeaders
    | None => newHeaders
    end in
  match contentType with
  | Some (String _ _ as ct) => Headers.set newHeaders "content-type" ct
  | _ => newHeaders
  end.

Definition formatRequestUrl (request : Request) (protocol : string) (h : Heap)
    : Completion NativeError URL.t * Heap :=
  let new_URL (s : string) : Completion NativeError URL.t :=
    match URL_parse env s with
    | Some u => Return u
    | None => Throw (TypeError s)
    end in
  if includes (url request) (cdn (domains _options)) then
    (if canParseURL env (url request)
     then new_URL (url request)
     else new_URL (protocol ++ "://" ++ remove_protocol (url request)),
     h)
  else
    let url := url request in
    let search :=
      match search request with
      | None => Fresh []
      | Some (SearchParams l) => Shared l
      | Some (SearchRecord r) =>
          Fresh (List.map (fun '(k, v) => (k, ToString v)) (filterObject r))
      end in
    let '(search, h) :=
      match accountToken request, accountTokenSearchParam _options with
      | Some a, Some (String _ _ as name) =>
          if truthy_account (Some a) then search_set name (property_key a) search h
          else (search, h)
      | _, _ => (search, h)
      end in
    let '(search, h) :=
      match overrideDeviceType request with
      | Some (String _ _ as device) =>
          match overrideDeviceTypeHeaderName _options with
          | Some (String _ _ as name) => search_set name device search h
          | _ => (search, h)
          end
      | _ =>
          match trackingSearchParam _options with
          | Some (String _ _ as name) => search_set name EmptyString search h
          | _ => (search, h)
          end
      end in
    let formattedUrl :=
      if startsWith url "/"
         || (canParseURL env url && truthy_bool (isDev _options)
             && negb (startsWith url "localhost:"))
      then
        match URL_parse_base env url (location_href env) with
        | Some u => Return u
        | None => Throw (TypeError url)
        end
      else new_URL (protocol ++ "://" ++ remove_protocol url) in
    (let* formattedUrl := formattedUrl in
     let formattedUrl :=
       {| URL.protocol := URL.protocol formattedUrl;
          URL.hostname := URL.hostname formattedUrl;
          URL.port := URL.port formattedUrl;
          URL.pathname := URL.pathname formattedUrl;
          URL.searchParams := URL.searchParams formattedUrl ++ search_entries h search;
          URL.hash := URL.hash formattedUrl |} in
     if truthy_bool (isDev _options)
        && String.eqb (URL.hostname formattedUrl) "localhost"
        && String.eqb (URL.protocol formattedUrl) "https:"
     then
       Return {| URL.protocol := "http:";
                 URL.hostname := URL.hostname formattedUrl;
                 URL.port := URL.port formattedUrl;
                 URL.pathname := URL.pathname formattedUrl;
                 URL.searchParams := URL.searchParams formattedUrl;
                 URL.hash := URL.hash formattedUrl |}
     else Return formattedUrl,
     h).

Definition formatBody (body : HTTPRequestBodyContent) : option Payload * option string :=
  match body with
  | ContentFormdata value =>
      (Some
         (PayloadFormData
            (fold_left
               (fun formdata '(name, value) =>
                  if truthy (fd_fileName value)
                  then params_set name value formdata
                  else params_set name {| fd_value := fd_value value; fd_fileName := None |}
                         formdata)
               value [])),
       None)
  | ContentJson value =>
      (PayloadString <$> (JSON_stringify env <$> value), Some "application/json")
  | ContentUrlencoded value =>
      (Some (PayloadParams value), Some "application/x-www-form-urlencoded")
  | ContentUnknown value => (PayloadUnknown <$> value, None)
  | ContentJsonWithBigInts value =>
      (PayloadString <$> (JSONv2_stringify env <$> value), Some "application/json")
  | ContentText value => (Some (PayloadString value), None)
  | ContentFile value => (Some (PayloadBytes value), None)
  end.

(** The transport that [_httpRequest] calls. *)
Definition transport (request : Request) : Fetch :=
  match truthy_bool (bypassCORS request), bypassCORSFetch _options with
  | true, Some f => f
  | _, _ => default (global_fetch env) (fetch _options)
  end.

Definition _httpRequest (request : Request) (st : State)
    : Completion NativeError HTTPResponse.t * State :=
  let '(url, h) := formatRequestUrl request "https" (heap st) in
  let st := set_heap h st in
  match url with
  | Throw e => (Throw e, st)
  | Return url =>
      let '(newBody, contentType) :=
        match body request with
        | Some body => formatBody body
        | None => (None, None)
        end in
      let headers := handleRequestHeaders request contentType newBody in
      let requestInfo :=
        {| init_method := default GET (method request);
           init_headers := headers;
           init_cache := cache request;
           init_body := newBody;
           init_credentials :=
             match includeCredentials request with
             | Some true => Some "include"
             | Some false => Some "omit"
             | None => None
             end |} in
      let response := transport request (length (dispatched st)) url requestInfo in
      let st := log_dispatch url requestInfo st in
      match response with
      | Throw e => (Throw e, st)
      | Return response =>
          (HTTPResponse.init env request response None (camelizeObject _options), st)
      end
  end.

Definition parseRatelimitHeaders (headers : Headers) : option Ratelimit :=
  if negb (Headers.has headers RATELIMIT_LIMIT_HEADER) then None
  else
    match Headers.get headers RATELIMIT_LIMIT_HEADER with
    | Some limit =>
        Some {| _limit := limit;
                remaining :=
                  parseInt10 (nullable_ToString (Headers.get headers RATELIMIT_REMAINING_HEADER));
                reset :=
                  parseInt10 (nullable_ToString (Headers.get headers RATELIMIT_RESET_HEADER)) |}
    | None => None
    end.

(** The headers that [httpRequest] starts from. *)
Definition initial_headers (request : Request) : Headers :=
  match headers request with
  | None => Headers.of_record (filterObject [])
  | Some (HeadersRecord r) => Headers.of_record (filterObject r)
  | Some (HeadersObject h) => h
  end.

Definition isRobloxApiRequest (request : Request) : bool :=
  includes (url request) (main (domains _options)).

(** [request.includeCsrf ?? (request.includeCsrf === undefined && method !== "GET")]. *)
Definition wants_csrf (request : Request) : bool :=
  match includeCsrf request with
  | Some b => b
  | None => negb (bool_decide (default GET (method request) = GET))
  end.

(** The token of a response that rotates the CSRF token: the request
    goes to the main host, the status is 403 and the response has the
    CSRF header. *)
Definition csrf_rotation (request : Request) (response : HTTPResponse.t) : option string :=
  if isRobloxApiRequest request
     && (status_code (HTTPResponse.status response) =? 403)%Z
     && Headers.has (HTTPResponse.headers response) CSRF_TOKEN_HEADER_NAME
  then Headers.get (HTTPResponse.headers response) CSRF_TOKEN_HEADER_NAME
  else None.

(** The headers of the retry that answers a challenge, when the
    caller's handler returns a new challenge; the handler may throw. *)
Definition challenge_retry (request : Request) (response : HTTPResponse.t)
    (headers : Headers) : Completion NativeError (option Headers) :=
  if isRobloxApiRequest request && negb (status_ok (HTTPResponse.status response)) then
    match handleChallenge request with
    | Some handle =>
        match parseChallengeHeaders env (HTTPResponse.headers response) with
        | Some parsedChallenge =>
            let* newChallenge := handle parsedChallenge in
            match newChallenge with
            | Some newChallenge =>
                let headers :=
                  Headers.set headers (GENERIC_CHALLENGE_TYPE_HEADER env)
                    (challengeType newChallenge) in
                let headers :=
                  Headers.set headers (GENERIC_CHALLENGE_ID_HEADER env)
                    (challengeId newChallenge) in
                Return (Some (Headers.set headers (GENERIC_CHALLENGE_METADATA_HEADER env)
                                (challengeBase64Metadata newChallenge)))
            | None => Return None
            end
        | None => Return None
        end
    | None => Return None
    end
  else Return None.

(** [retries && retries > 0 && RETRY_ERROR_CODES.includes(code)]. *)
Definition retry_applies (retries : option JsNumber) (code : Z) : bool :=
  match retries with
  | Some n => truthy_number n && is_positive n && is_retry_code code
  | None => false
  end.

Definition valueAsString (value : Json) : string :=
  match value with
  | JArray _ => JSON_stringify env value
  | _ => Json_ToString value
  end.

Definition errorAsString (error : AnyError) : string :=
  fold_left
    (fun errorAsString '(key, value) =>
       errorAsString ++ key ++ ": " ++ DQUOTE ++ valueAsString value ++ DQUOTE)
    error EmptyString.

Definition errorsAsString (errors : list AnyError) : string :=
  fold_left
    (fun errorsAsString error =>
       errorsAsString
         ++ (if truthy (Some errorsAsString) then LF else EmptyString)
         ++ errorAsString error)
    errors EmptyString.

(** The error that [httpRequest] throws for a response, once the
    parser has returned the structured errors. *)
Definition rest_error (request : Request) (response : HTTPResponse.t)
    (errors : list AnyError) (ratelimitHeaders : option Ratelimit) : RESTError.t :=
  let errorsAsString := errorsAsString errors in
  {| RESTError.message :=
       "HTTP " ++ Z_ToString (status_code (HTTPResponse.status response))
       ++ " from " ++ HTTPMethod_ToString (default GET (method request))
       ++ " " ++ HTTPResponse.url response
       ++ (if truthy (Some errorsAsString)
           then LF ++ LF
                ++ ErrorHandling_ToString (default BEDEV1 (errorHandling request))
                ++ " errors:" ++ LF ++ errorsAsString
           else EmptyString);
     RESTError.isHttpError := true;
     RESTError.errors := Some errors;
     RESTError.httpCode := Some (status_code (HTTPResponse.status response));
     RESTError.response := Some response;
     RESTError.ratelimit := ratelimitHeaders |}.

Definition lift {A} (c : Completion NativeError A) : Completion Thrown A :=
  match c with
  | Return a => Return a
  | Throw e => Throw (Native e)
  end.

(** [String(v)] for a member of [Object.prototype]. *)
Definition member_ToString (key : string) : string :=
  if String.eqb key "__proto__" then "[object Object]" else native_function_text env key.

(** The loop of [httpRequest]; one unit of [fuel] per dispatch, and
    [None] when the fuel ends before the loop does. *)
Fixpoint httpRequest_loop (fuel : nat) (request : Request) (headers : Headers)
    (retries : option JsNumber) (st : State)
    : option (Completion Thrown HTTPResponse.t) * State :=
  match fuel with
  | O => (None, st)
  | S fuel =>
      let '(response, st) :=
        _httpRequest (with_expect_headers request ExpectNone headers) st in
      match response with
      | Throw e => (Some (Throw (Native e)), st)
      | Return response =>
          match csrf_rotation request response with
          | Some csrfToken =>
              let st :=
                set_csrfTokens
                  (setCsrfToken (csrfTokens st) (Some csrfToken)
                     (includeCredentials request) (accountToken request)) st in
              httpRequest_loop fuel request
                (Headers.set headers CSRF_TOKEN_HEADER_NAME csrfToken) retries st
          | None =>
              let ratelimitHeaders :=
                parseRatelimitHeaders (HTTPResponse.headers response) in
              match challenge_retry request response headers with
              | Throw e => (Some (Throw (Native e)), st)
              | Return (Some headers) => httpRequest_loop fuel request headers retries st
              | Return None =>
                  if negb (bool_decide (errorHandling request = Some ErrorHandlingNone))
                     && negb (status_ok (HTTPResponse.status response))
                  then
                    if retry_applies retries (status_code (HTTPResponse.status response))
                    then httpRequest_loop fuel request headers (decrement <$> retries) st
                    else
                      match
                        (if bool_decide (default BEDEV1 (errorHandling request) = BEDEV1)
                         then parseBEDEV1Error env
                         else parseBEDEV2Error env) (HTTPResponse._response response)
                      with
                      | Throw e => (Some (Throw (Native e)), st)
                      | Return errors =>
                          (Some (Throw (Rest (rest_error request response errors
                                                ratelimitHeaders))), st)
                      end
                  else
                    (Some (lift (HTTPResponse.init env request
                                   (HTTPResponse._response response) ratelimitHeaders
                                   (camelizeObject _options))),
                     st)
              end
          end
      end
  end.

Definition httpRequest (fuel : nat) (request : Request) (st : State)
    : option (Completion Thrown HTTPResponse.t) * State :=
  let headers := initial_headers request in
  let headers :=
    if isRobloxApiRequest request && wants_csrf request then
      match getCsrfToken (csrfTokens st) (includeCredentials request) (accountToken request) with
      | TokenText (Some (String _ _ as csrfToken)) =>
          Headers.set headers CSRF_TOKEN_HEADER_NAME csrfToken
      | PrototypeMember key =>
          Headers.set headers CSRF_TOKEN_HEADER_NAME (member_ToString key)
      | TokenText _ => headers
      end
    else headers in
  httpRequest_loop fuel request headers (retries request) st.

End Client.

End HTTPClient.

(** ** A concrete environment

    The examples run the client in a small environment: a page without
    a document token unless one is given, a transport that answers the
    i-th call with the i-th response of a script, and parsers that
    handle the few texts the examples use. *)

Module Demo.

(** A JSON parser for scalars and empty containers; like [JSON.parse]
    it rejects a text that is not JSON, such as [Not Found]. *)
Definition json_parse (s : string) : option Json :=
  if String.eqb s "null" then Some JNull
  else if String.eqb s "true" then Some (JBool true)
  else if String.eqb s "false" then Some (JBool false)
  else if String.eqb s "{}" then Some (JObject [])
  else if String.eqb s "[]" then Some (JArray [])
  else None.

Definition json_stringify (j : Json) : string :=
  match j with
  | JArray [] => "[]"
  | JObject [] => "{}"
  | _ => Json_ToString j
  end.

Fixpoint split_at_slash (s : string) : string * string :=
  match s with
  | EmptyString => (EmptyString, "/")
  | String c s' =>
      if Ascii.eqb c "/" then (EmptyString, s)
      else let '(host, path) := split_at_slash s' in (String c host, path)
  end.

(** [new URL(s)] for [http(s)://host/path] without port, query or
    fragment; a text without a scheme is rejected, as by [new URL]. *)
Definition url_parse (s : string) : option URL.t :=
  let parse (scheme rest : string) :=
    let '(host, path) := split_at_slash rest in
    match host with
    | EmptyString => None
    | _ => Some {| URL.protocol := scheme; URL.hostname := host; URL.port := EmptyString;
                   URL.pathname := path; URL.searchParams := []; URL.hash := EmptyString |}
    end in
  if startsWith s "https://" then parse "https:" (drop 8 s)
  else if startsWith s "http://" then parse "http:" (drop 7 s)
  else None.

(** [new URL(s, base)] for an absolute [s] or a path [s]. *)
Definition url_parse_base (s base : string) : option URL.t :=
  match url_parse s with
  | Some u => Some u
  | None =>
      match url_parse base with
      | Some b =>
          if startsWith s "/" then
            Some {| URL.protocol := URL.protocol b; URL.hostname := URL.hostname b;
                    URL.port := URL.port b; URL.pathname := s;
                    URL.searchParams := []; URL.hash := EmptyString |}
          else None
      | None => None
      end
  end.

(** The transport that answers the i-th call with the i-th response. *)
Definition scripted (script : list Response.t) : Fetch :=
  fun i _ _ =>
    match script !! i with
    | Some r => Return r
    | None => Throw (NetworkError "no response")
    end.

(** The structured errors of a response. A response that announces
    JSON is parsed, and the parser throws when the body is not JSON;
    otherwise there are two errors, each with a [code] and a
    [message], for the body [two errors], and none for another body. *)
Definition parse_errors (r : Response.t) : Completion NativeError (list AnyError) :=
  if includes (default EmptyString (Headers.get (Response.headers r) "content-type"))
       "application/json"
  then
    let* text := Response.text r in
    match json_parse text with
    | Some _ => Return []
    | None => Throw (SyntaxError text)
    end
  else
    match Response.text r with
    | Return "two errors" =>
        Return [[("code", JNumber 1); ("message", JString "first")];
                [("code", JNumber 2); ("message", JString "second")]]
    | _ => Return []
    end.

(** The challenge of a response: there is one when the three challenge
    headers are present and not empty. *)
Definition parse_challenge (h : Headers) : option ParsedChallenge :=
  match Headers.get h "rblx-challenge-type", Headers.get h "rblx-challenge-id",
        Headers.get h "rblx-challenge-metadata" with
  | Some (String _ _ as ctype), Some (String _ _ as cid), Some (String _ _ as metadata) =>
      Some {| challengeType := ctype; challengeId := cid; challengeBase64Metadata := metadata |}
  | _, _, _ => None
  end.

(** The environment with a transport: no default account token (the
    binding that the sources import is not defined), the page with the
    given document token. *)
Definition env_with (document_token : option string) (transport : Fetch) : Env :=
  {| DEFAULT_ACCOUNT_TOKEN := None;
     GENERIC_CHALLENGE_TYPE_HEADER := "rblx-challenge-type";
     GENERIC_CHALLENGE_ID_HEADER := "rblx-challenge-id";
     GENERIC_CHALLENGE_METADATA_HEADER := "rblx-challenge-metadata";
     JSON_parse := json_parse;
     JSONv2_parse := json_parse;
     JSON_stringify := json_stringify;
     JSONv2_stringify := json_stringify;
     Response_formData := fun _ => None;
     DOMParser_defined := true;
     URL_parse := url_parse;
     URL_parse_base := url_parse_base;
     location_href := "https://www.roblox.com/home";
     document_csrf_token := document_token;
     native_function_text := fun name => "function " ++ name ++ "() { [native code] }";
     parseBEDEV1Error := parse_errors;
     parseBEDEV2Error := parse_errors;
     parseChallengeHeaders := parse_challenge;
     global_fetch := transport |}.

(** The environment of a page with the given document token and of a
    transport with the given script. *)
Definition env (document_token : option string) (script : list Response.t) : Env :=
  env_with document_token (scripted script).

(** Options with the two hosts, and the given [onWebsite],
    [camelizeObject] and [accountTokenSearchParam]. *)
Definition configure (website : option bool) (camelize : option CamelizeObjectFn)
    (accountParam : option string) : HTTPClient.HTTPClientConstructorOptions :=
  {| HTTPClient.domains := {| HTTPClient.main := "roblox.com"; HTTPClient.cdn := "rbxcdn.com" |};
     HTTPClient.hbaClient := None;
     HTTPClient.onWebsite := website;
     HTTPClient.fetch := None;
     HTTPClient.bypassCORSFetch := None;
     HTTPClient.camelizeObject := camelize;
     HTTPClient.overrideDeviceTypeHeaderName := None;
     HTTPClient.overrideDeviceTypeToUserAgent := None;
     HTTPClient.trackingUserAgent := None;
     HTTPClient.trackingSearchParam := None;
     HTTPClient.accountTokenSearchParam := accountParam;
     HTTPClient.isDev := None |}.

Definition options : HTTPClient.HTTPClientConstructorOptions := configure None None None.

Definition make (u : string) (e : option ExpectContentType) (camelize : option bool)
    (n : option Z) (mode : option ErrorHandling) (s : option SearchInit)
    (a : option AccountToken) (credentials : option bool) : Request :=
  {| method := None; url := u; search := s; headers := None; body := None;
     expect := e; includeCredentials := credentials; camelizeResponse := camelize;
     cache := None; bypassCORS := None; accountToken := a;
     overrideDeviceType := None; includeCsrf := None; retries := Num <$> n;
     errorHandling := mode; handleChallenge := None |}.

(** The request [{ url }]. *)
Definition request (u : string) : Request :=
  make u None None None None None None None.

(** [{ url, expect: "json", camelizeResponse: true }]. *)
Definition request_camelized (u : string) : Request :=
  make u (Some ExpectJson) (Some true) None None None None None.


(** [{ url, retries: n }]. *)
Definition request_retrying (u : string) (n : Z) : Request :=
  make u None None (Some n) None None None None.

(** [{ url, retries: Infinity }]. *)
Definition request_retrying_forever (u : string) : Request :=
  {| method := None; url := u; search := None; headers := None; body := None;
     expect := None; includeCredentials := None; camelizeResponse := None;
     cache := None; bypassCORS := None; accountToken := None;
     overrideDeviceType := None; includeCsrf := None; retries := Some (Infinite false);
     errorHandling := None; handleChallenge := None |}.

(** [{ url, expect: "text", retries: n }]. *)
Definition request_text_retrying (u : string) (n : Z) : Request :=
  make u (Some ExpectText) None (Some n) None None None None.

(** [{ url, search, accountToken }] with [search] the [URLSearchParams]
    object at a location. *)
Definition request_with_params (u : string) (l : loc) (a : string) : Request :=
  make u None None None None (Some (SearchParams l)) (Some (AccountString a)) None.

(** [{ url, search, accountToken }] with [search] a plain object. *)
Definition request_with_record (u : string) (r : list (string * JsValue)) (a : string) : Request :=
  make u None None None None (Some (SearchRecord r)) (Some (AccountString a)) None.

(** A camelization function that returns nothing. *)
Definition camelize_nothing : CamelizeObjectFn := fun _ _ => Return BodyUndefined.

(** A camelization function that leaves its input as it is. *)
Definition camelize_same : CamelizeObjectFn := fun b _ => Return b.

(** A response with a status, headers and a body. *)
Definition respond (code : Z) (h : list (string * string)) (text : string) : Response.t :=
  {| Response.ok := (200 <=? code)%Z && (code <=? 299)%Z;
     Response.status := code;
     Response.statusText := EmptyString;
     Response.headers := Headers.of_list h;
     Response.url := "https://example.com/";
     Response.redirected := false;
     Response.text := Return text |}.

Definition state0 : HTTPClient.State :=
  {| HTTPClient.csrfTokens := HTTPClient.csrfTokens_init;
     HTTPClient.heap := ∅;
     HTTPClient.dispatched := [] |}.

(** A client state whose heap holds the caller's [URLSearchParams]
    object [size=large] at location 0. *)
Definition caller_heap : Heap := {[ 0 := [("size", "large")] ]}.

Definition state_with_params : HTTPClient.State :=
  {| HTTPClient.csrfTokens := HTTPClient.csrfTokens_init;
     HTTPClient.heap := caller_heap;
     HTTPClient.dispatched := [] |}.

(** The two blocks of the errors that [parse_errors] returns. *)
Definition first_block : string :=
  "code: " ++ DQUOTE ++ "1" ++ DQUOTE ++ "message: " ++ DQUOTE ++ "first" ++ DQUOTE.

Definition second_block : string :=
  "code: " ++ DQUOTE ++ "2" ++ DQUOTE ++ "message: " ++ DQUOTE ++ "second" ++ DQUOTE.

(** A signer that returns a device-bound token twice, under two
    spellings of the name, and a content type. *)
Definition signer : HBAClient :=
  fun _ _ _ _ =>
    [("x-bound-auth-token", "v1"); ("Content-Type", "text/plain");
     ("X-Bound-Auth-Token", "v2")].

(** Options with the two hosts and the signer. *)
Definition signed_options : HTTPClient.HTTPClientConstructorOptions :=
  {| HTTPClient.domains := {| HTTPClient.main := "roblox.com"; HTTPClient.cdn := "rbxcdn.com" |};
     HTTPClient.hbaClient := Some signer;
     HTTPClient.onWebsite := None;
     HTTPClient.fetch := None;
     HTTPClient.bypassCORSFetch := None;
     HTTPClient.camelizeObject := None;
     HTTPClient.overrideDeviceTypeHeaderName := None;
     HTTPClient.overrideDeviceTypeToUserAgent := None;
     HTTPClient.trackingUserAgent := None;
     HTTPClient.trackingSearchParam := None;
     HTTPClient.accountTokenSearchParam := None;
     HTTPClient.isDev := None |}.

(** Options with the two hosts, in development mode. *)
Definition dev_options : HTTPClient.HTTPClientConstructorOptions :=
  {| HTTPClient.domains := {| HTTPClient.main := "roblox.com"; HTTPClient.cdn := "rbxcdn.com" |};
     HTTPClient.hbaClient := None;
     HTTPClient.onWebsite := None;
     HTTPClient.fetch := None;
     HTTPClient.bypassCORSFetch := None;
     HTTPClient.camelizeObject := None;
     HTTPClient.overrideDeviceTypeHeaderName := None;
     HTTPClient.overrideDeviceTypeToUserAgent := None;
     HTTPClient.trackingUserAgent := None;
     HTTPClient.trackingSearchParam := None;
     HTTPClient.accountTokenSearchParam := None;
     HTTPClient.isDev := Some true |}.

(** [{ url, headers }] with [headers] a plain object. *)
Definition request_with_headers (u : string) (r : list (string * JsValue)) : Request :=
  {| method := None; url := u; search := None; headers := Some (HeadersRecord r);
     body := None; expect := None; includeCredentials := None; camelizeResponse := None;
     cache := None; bypassCORS := None; accountToken := None;
     overrideDeviceType := None; includeCsrf := None; retries := None;
     errorHandling := None; handleChallenge := None |}.

(** [{ url, method: "POST", expect: "none" }]. *)
Definition request_post (u : string) : Request :=
  {| method := Some POST; url := u; search := None; headers := None;
     body := None; expect := Some ExpectNone; includeCredentials := None;
     camelizeResponse := None; cache := None; bypassCORS := None; accountToken := None;
     overrideDeviceType := None; includeCsrf := None; retries := None;
     errorHandling := None; handleChallenge := None |}.

(** [{ url, handleChallenge }]. *)
Definition request_challenged (u : string)
    (handle : ParsedChallenge -> Completion NativeError (option ParsedChallenge)) : Request :=
  {| method := None; url := u; search := None; headers := None;
     body := None; expect := None; includeCredentials := None;
     camelizeResponse := None; cache := None; bypassCORS := None; accountToken := None;
     overrideDeviceType := None; includeCsrf := None; retries := None;
     errorHandling := None; handleChallenge := Some handle |}.

(** The handler that answers a challenge with the same challenge and
    the metadata [solved]. *)
Definition solve (c : ParsedChallenge) : Completion NativeError (option ParsedChallenge) :=
  Return (Some {| challengeType := challengeType c; challengeId := challengeId c;
                  challengeBase64Metadata := "solved" |}).

(** A response that is not ok and carries a challenge. *)
Definition challenged : Response.t :=
  respond 403 [("rblx-challenge-type", "captcha"); ("rblx-challenge-id", "c-1");
               ("rblx-challenge-metadata", "e30=")] EmptyString.

(** A client state whose store holds the anonymous token [stored]. *)
Definition state_with_token : HTTPClient.State :=
  {| HTTPClient.csrfTokens := {| HTTPClient.accounts := ∅; HTTPClient.ip := Some "stored" |};
     HTTPClient.heap := ∅;
     HTTPClient.dispatched := [] |}.

(** The transport that answers every call with one response. *)
Definition repeating (r : Response.t) : Fetch := fun _ _ _ => Return r.

(** The environment of [env] with the transport that answers every
    call with the response. *)
Definition repeating_env (r : Response.t) : Env := env_with None (repeating r).

End Demo.

(** ** Vocabulary of the statements *)

(** A text opens with a decimal digit. *)
Definition starts_with_digit (s : string) : bool :=
  match s with
  | String c _ => bool_decide (is_Some (digit_value c))
  | EmptyString => false
  end.

(** A header value that [Number.parseInt] cannot read: after the
    leading white space and the sign there is no digit. *)
Definition unparsable (s : string) : Prop :=
  starts_with_digit (snd (split_sign (trimStart s))) = false.

(** [{...request, expect: e}]. *)
Definition with_expect (request : Request) (e : option ExpectContentType) : Request :=
  {| method := method request; url := url request; search := search request;
     headers := headers request; body := body request; expect := e;
     includeCredentials := includeCredentials request;
     camelizeResponse := camelizeResponse request; cache := cache request;
     bypassCORS := bypassCORS request; accountToken := accountToken request;
     overrideDeviceType := overrideDeviceType request;
     includeCsrf := includeCsrf request; retries := retries request;
     errorHandling := errorHandling request;
     handleChallenge := handleChallenge request |}.

(** The JSON decoding of a response, with the camelization that the
    request asks for. *)
Definition decode_json (env : Env) (request : Request) (response : Response.t)
    (camelizeObject : option CamelizeObjectFn) : Completion NativeError Body :=
  let* text := Response.text response in
  match JSON_parse env (trim text) with
  | None => Throw (SyntaxError (trim text))
  | Some j =>
      match camelizeObject with
      | Some camelize =>
          if truthy_bool (camelizeResponse request)
          then camelize (BodyJson j) {| pascalCase := false; deep := true |}
          else Return (BodyJson j)
      | None => Return (BodyJson j)
      end
  end.

(** The camelization function, where the client applies it to this
    request, returns a defined value on a decoded JSON body. *)
Definition camelize_defined (request : Request) (camelizeObject : option CamelizeObjectFn) : Prop :=
  forall camelize, camelizeObject = Some camelize ->
    truthy_bool (camelizeResponse request) = true ->
    forall j o, camelize (BodyJson j) o <> Return BodyUndefined.

(** The dispatch that the loop of [httpRequest] makes with a header
    collection: the request with the expected kind none. *)
Definition dispatch (env : Env) (opts : HTTPClient.HTTPClientConstructorOptions)
    (request : Request) (headers : Headers) (st : HTTPClient.State)
    : Completion NativeError HTTPResponse.t * HTTPClient.State :=
  HTTPClient._httpRequest env opts (with_expect_headers request ExpectNone headers) st.

(** The dispatch number [i] of the client (counting from 0) yields a
    response with the property [P], whatever headers it sends. *)
Definition attempt_yields (env : Env) (opts : HTTPClient.HTTPClientConstructorOptions)
    (request : Request) (i : nat) (P : HTTPResponse.t -> Prop) : Prop :=
  forall st headers, length (HTTPClient.dispatched st) = i ->
    exists response st', dispatch env opts request headers st = (Return response, st')
                         /\ P response.

(** A response that is not ok, has a status code of
    [RETRY_ERROR_CODES], and for which no challenge is answered. *)
Definition transient (env : Env) (opts : HTTPClient.HTTPClientConstructorOptions)
    (request : Request) (response : HTTPResponse.t) : Prop :=
  status_ok (HTTPResponse.status response) = false
  /\ is_retry_code (status_code (HTTPResponse.status response)) = true
  /\ forall headers,
      HTTPClient.challenge_retry env opts request response headers = Return None.


(** The parser of structured errors that the mode selects. *)
Definition selected_parser (env : Env) (request : Request)
    : Response.t -> Completion NativeError (list AnyError) :=
  match default BEDEV1 (errorHandling request) with
  | BEDEV1 => parseBEDEV1Error env
  | _ => parseBEDEV2Error env
  end.

(** What [httpRequest] throws for a response that ends the call: the
    error of the parser when the parser throws, and otherwise the REST
    error with the structured errors. *)
Definition thrown_for (env : Env) (request : Request) (response : HTTPResponse.t) : Thrown :=
  match selected_parser env request (HTTPResponse._response response) with
  | Return errors =>
      Rest (HTTPClient.rest_error env request response errors
              (HTTPClient.parseRatelimitHeaders (HTTPResponse.headers response)))
  | Throw e => Native e
  end.

(** One property of a structured error, as the message shows it. *)
Definition render_pair (env : Env) (p : string * Json) : string :=
  fst p ++ ": " ++ DQUOTE ++ HTTPClient.valueAsString env (snd p) ++ DQUOTE.

(** The block of a structured error: its pairs, one after the other. *)
Definition render_error (env : Env) (error : AnyError) : string :=
  String.concat EmptyString (List.map (render_pair env) error).

Fixpoint drop_empty (blocks : list string) : list string :=
  match blocks with
  | EmptyString :: rest => drop_empty rest
  | _ => blocks
  end.

(** The blocks of the errors, a line break between two blocks; empty
    blocks at the front are left out. *)
Definition render_errors (env : Env) (errors : list AnyError) : string :=
  String.concat LF (drop_empty (List.map (render_error env) errors)).

(** Each block after a line break. *)
Definition prefixed (blocks : list string) : string :=
  fold_right (fun b rest => LF ++ b ++ rest) EmptyString blocks.

(** The rendering that the specification words describe: a blank line
    between two blocks. *)
Definition render_errors_blank_lines (env : Env) (errors : list AnyError) : string :=
  String.concat (LF ++ LF) (List.map (render_error env) errors).

(** The message of the error raised for a response and its
    structured errors. *)
Definition render_message (env : Env) (request : Request) (response : HTTPResponse.t)
    (errors : list AnyError) : string :=
  let rendered := render_errors env errors in
  "HTTP " ++ Z_ToString (status_code (HTTPResponse.status response))
  ++ " from " ++ HTTPMethod_ToString (default GET (method request))
  ++ " " ++ HTTPResponse.url response
  ++ match rendered with
     | EmptyString => EmptyString
     | _ => LF ++ LF ++ ErrorHandling_ToString (default BEDEV1 (errorHandling request))
            ++ " errors:" ++ LF ++ rendered
     end.

(** What holds of the local variable [search] of [formatRequestUrl]
    and of the heap while the function runs from the heap [h]: the
    variable is the caller's object and the rest of the heap is as it
    was, or the variable is an object of the function's own and the
    heap is as it was. *)
Definition search_frame (request : Request) (h : Heap) (s : SearchVar) (h' : Heap) : Prop :=
  match search request with
  | Some (SearchParams l) => s = Shared l /\ forall l', l' <> l -> h' !! l' = h !! l'
  | _ => (exists p, s = Fresh p) /\ h' = h
  end.

(** The parameters that [formatRequestUrl] sets on the search
    parameters, in the order of the calls of [set]: the account
    parameter, then the device parameter or the tracking marker. *)
Definition injected (opts : HTTPClient.HTTPClientConstructorOptions) (request : Request)
    : Params :=
  (match accountToken request, HTTPClient.accountTokenSearchParam opts with
   | Some a, Some (String _ _ as name) =>
       if truthy_account (Some a) then [(name, property_key a)] else []
   | _, _ => []
   end
   ++ match overrideDeviceType request with
      | Some (String _ _ as device) =>
          match HTTPClient.overrideDeviceTypeHeaderName opts with
          | Some (String _ _ as name) => [(name, device)]
          | _ => []
          end
      | _ =>
          match HTTPClient.trackingSearchParam opts with
          | Some (String _ _ as name) => [(name, EmptyString)]
          | _ => []
          end
      end)%list.

(** The calls [set(k, v)] of a list, one after the other. *)
Definition apply_sets (sets : Params) (p : Params) : Params :=
  fold_left (fun p '(k, v) => params_set k v p) sets p.

(** The search parameters of a request before [formatRequestUrl] sets
    anything: those of the caller's object, or the entries of the
    plain object that are neither [null] nor [undefined], as text. *)
Definition search_base (request : Request) (h : Heap) : Params :=
  match search request with
  | None => []
  | Some (SearchParams l) => default [] (h !! l)
  | Some (SearchRecord r) => List.map (fun '(k, v) => (k, ToString v)) (filterObject r)
  end.

(** The URL that [formatRequestUrl] resolves outside the CDN host,
    before it appends the search parameters. *)
Definition resolve (env : Env) (opts : HTTPClient.HTTPClientConstructorOptions)
    (url protocol : string) : Completion NativeError URL.t :=
  if startsWith url "/"
     || (canParseURL env url && truthy_bool (HTTPClient.isDev opts)
         && negb (startsWith url "localhost:"))
  then
    match URL_parse_base env url (location_href env) with
    | Some u => Return u
    | None => Throw (TypeError url)
    end
  else
    match URL_parse env (protocol ++ "://" ++ remove_protocol url) with
    | Some u => Return u
    | None => Throw (TypeError (protocol ++ "://" ++ remove_protocol url))
    end.

(** A URL with some search parameters more. *)
Definition add_params (u : URL.t) (entries : Params) : URL.t :=
  {| URL.protocol := URL.protocol u; URL.hostname := URL.hostname u;
     URL.port := URL.port u; URL.pathname := URL.pathname u;
     URL.searchParams := (URL.searchParams u ++ entries)%list;
     URL.hash := URL.hash u |}.

(** The entries with a name. *)
Definition named (k : string) (p : Params) : Params :=
  List.filter (fun e => String.eqb (fst e) k) p.

(** The scheme that development mode forces for the host [localhost]. *)
Definition dev_scheme (opts : HTTPClient.HTTPClientConstructorOptions) (u : URL.t) : URL.t :=
  if truthy_bool (HTTPClient.isDev opts)
     && String.eqb (URL.hostname u) "localhost"
     && String.eqb (URL.protocol u) "https:"
  then {| URL.protocol := "http:"; URL.hostname := URL.hostname u;
          URL.port := URL.port u; URL.pathname := URL.pathname u;
          URL.searchParams := URL.searchParams u; URL.hash := URL.hash u |}
  else u.

(** The value of a decimal numeral that follows the digits of the
    value [acc]. *)
Fixpoint uint_value (d : Decimal.uint) (acc : Z) : Z :=
  match d with
  | Decimal.Nil => acc
  | Decimal.D0 d => uint_value d (10 * acc)
  | Decimal.D1 d => uint_value d (10 * acc + 1)
  | Decimal.D2 d => uint_value d (10 * acc + 2)
  | Decimal.D3 d => uint_value d (10 * acc + 3)
  | Decimal.D4 d => uint_value d (10 * acc + 4)
  | Decimal.D5 d => uint_value d (10 * acc + 5)
  | Decimal.D6 d => uint_value d (10 * acc + 6)
  | Decimal.D7 d => uint_value d (10 * acc + 7)
  | Decimal.D8 d => uint_value d (10 * acc + 8)
  | Decimal.D9 d => uint_value d (10 * acc + 9)
  end%Z.

(** The signer, if there is one, returns no header of a name for a
    request, whatever the body. *)
Definition unsigned (opts : HTTPClient.HTTPClientConstructorOptions) (request : Request)
    (name : string) : Prop :=
  forall generate newBody, HTTPClient.hbaClient opts = Some generate ->
    ~ In (toLowerCase name)
        (List.map (fun p => toLowerCase (fst p))
           (generate (url request) (method request) (includeCredentials request) newBody)).

(** A retry budget that is a whole number [n] of retries: no budget
    or one that is not positive for [n = 0], and otherwise the double
    of [n], which is at most [2^53] (beyond it [retries--] may leave
    the budget as it is). *)
Definition whole_budget (retries : option JsNumber) (n : nat) : Prop :=
  (Z.of_nat n <= 2 ^ 53)%Z
  /\ (retries = Some (Num (Z.of_nat n))
      \/ n = 0 /\ (retries = None \/ exists z, (z <= 0)%Z /\ retries = Some (Num z))).

(** ** Texts *)

Lemma append_cons (x : ascii) (a b : string) : String x a ++ b = String x (a ++ b).
Proof. reflexivity. Qed.

Lemma append_nil_l (a : string) : EmptyString ++ a = a.
Proof. reflexivity. Qed.

Lemma append_assoc (a b c : string) : (a ++ b) ++ c = a ++ b ++ c.
Proof.
  induction a as [|x a IH]; [reflexivity|].
  by rewrite !append_cons, IH.
Qed.

Lemma append_nil_r (a : string) : a ++ EmptyString = a.
Proof.
  induction a as [|x a IH]; [reflexivity|].
  by rewrite append_cons, IH.
Qed.

(** ** The rate-limit parser *)

Lemma digits_prefix_Some (s : string) (a : Z) : is_Some (digits_prefix s (Some a)).
Proof.
  revert a. induction s as [|c s IH]; intros a; simpl; [eauto|].
  destruct (digit_value c); [apply IH | eauto].
Qed.

Lemma round53_not_NaN negative m e : round53 negative m e <> NaN.
Proof.
  unfold round53. destruct (m <? 2 ^ 53)%Z; [discriminate|].
  cbv zeta. destruct (if (_ =? 2 ^ 53)%Z then _ else _) as [q k].
  destruct (971 <? e + k)%Z; discriminate.
Qed.

Lemma parseInt10_NaN_iff (s : string) : parseInt10 s = NaN <-> unparsable s.
Proof.
  unfold parseInt10, unparsable.
  destruct (split_sign (trimStart s)) as [negative s2]; simpl.
  destruct s2 as [|c r]; simpl; [tauto|].
  destruct (digit_value c) as [d|] eqn:Hd.
  - destruct (digits_prefix_Some r (10 * 0 + d)) as [n ->].
    split; [intros H; by apply round53_not_NaN in H|].
    rewrite bool_decide_eq_false. intros H. destruct H. eauto.
  - split; [|reflexivity]. intros _. apply bool_decide_eq_false. intros [? ?]; discriminate.
Qed.

Ltac eval_digit :=
  match goal with
  | |- context [digit_value ?c] =>
      let v := eval vm_compute in (digit_value c) in
      change (digit_value c) with v; cbv beta iota
  end.

(** The digits of a decimal numeral are read back as its value. *)
Lemma digits_prefix_uint (d : Decimal.uint) (rest : string) (a : Z) :
  starts_with_digit rest = false ->
  digits_prefix (NilEmpty.string_of_uint d ++ rest) (Some a) = Some (uint_value d a).
Proof.
  intros Hrest. revert a.
  induction d as [|d IH|d IH|d IH|d IH|d IH|d IH|d IH|d IH|d IH|d IH]; intros a;
    try (cbn [NilEmpty.string_of_uint uint_value]; rewrite append_cons;
         cbn [digits_prefix]; eval_digit; rewrite IH; do 2 f_equal;
         cbn [default from_option id]; lia).
  cbn [NilEmpty.string_of_uint uint_value]. rewrite append_nil_l.
  destruct rest as [|c rest]; [reflexivity|].
  cbn [starts_with_digit] in Hrest. apply bool_decide_eq_false in Hrest.
  cbn [digits_prefix]. destruct (digit_value c); [|reflexivity].
  destruct Hrest. eauto.
Qed.

Lemma uint_value_of_uint_acc (d : Decimal.uint) (p : positive) :
  Z.pos (Pos.of_uint_acc d p) = uint_value d (Z.pos p).
Proof.
  revert p. induction d; intros p; cbn [Pos.of_uint_acc uint_value];
    rewrite ?IHd; try reflexivity; f_equal; lia.
Qed.

Lemma uint_value_of_uint (d : Decimal.uint) : Z.of_N (Pos.of_uint d) = uint_value d 0.
Proof.
  induction d; cbn [Pos.of_uint uint_value]; try exact IHd; try reflexivity;
    cbn [Z.of_N]; rewrite uint_value_of_uint_acc; reflexivity.
Qed.

Lemma trimStart_no_white_space (s : string) : white_space_width s = 0 -> trimStart s = s.
Proof.
  intros H. unfold trimStart. destruct (String.length s); [reflexivity|].
  cbn [skip_white_space]. by rewrite H.
Qed.

(** A numeral without a sign, and a numeral with the sign minus. *)
Lemma parseInt10_uint (d : Decimal.uint) (rest : string) :
  d <> Decimal.Nil ->
  starts_with_digit rest = false ->
  parseInt10 (NilEmpty.string_of_uint d ++ rest) = round53 false (uint_value d 0) 0
  /\ parseInt10 (String "-" (NilEmpty.string_of_uint d ++ rest))
     = round53 true (uint_value d 0) 0.
Proof.
  intros Hd Hrest. unfold parseInt10.
  rewrite (trimStart_no_white_space (String "-" _)) by reflexivity.
  destruct d; try done; cbn [NilEmpty.string_of_uint]; rewrite append_cons;
    (rewrite trimStart_no_white_space by reflexivity);
    cbn [split_sign Ascii.eqb Bool.eqb]; cbn [digits_prefix]; eval_digit;
    rewrite digits_prefix_uint by exact Hrest; split; reflexivity.
Qed.

(** [Number.parseInt] reads the decimal numeral of an integer of a
    size below [2^53] back as this integer, whatever follows the
    numeral. *)
Lemma parseInt10_numeral (n : Z) (rest : string) :
  (Z.abs n < 2 ^ 53)%Z ->
  starts_with_digit rest = false ->
  parseInt10 (Z_ToString n ++ rest) = Num n.
Proof.
  intros Hn Hrest. unfold Z_ToString.
  assert (forall negative v, (v < 2 ^ 53)%Z -> round53 negative v 0 = Double negative v 0)
    as Hround.
  { intros negative v Hv. unfold round53.
    destruct (v <? 2 ^ 53)%Z eqn:Hlt; [reflexivity | apply Z.ltb_ge in Hlt; lia]. }
  assert (forall p, NilZero.string_of_uint (Pos.to_uint p)
                    = NilEmpty.string_of_uint (Pos.to_uint p)) as Hnil.
  { intros p. pose proof (DecimalPos.Unsigned.to_uint_nonnil p).
    unfold NilZero.string_of_uint. by destruct (Pos.to_uint p). }
  assert (forall p, uint_value (Pos.to_uint p) 0 = Z.pos p) as Hvalue.
  { intros p. by rewrite <- uint_value_of_uint, DecimalPos.Unsigned.of_to. }
  destruct n as [|p|p]; cbn [Z.to_int NilZero.string_of_int].
  - apply (parseInt10_uint (Decimal.D0 Decimal.Nil) rest); [done | exact Hrest].
  - rewrite Hnil.
    rewrite (proj1 (parseInt10_uint _ rest (DecimalPos.Unsigned.to_uint_nonnil p) Hrest)).
    rewrite Hvalue. by rewrite Hround by lia.
  - rewrite Hnil, append_cons.
    rewrite (proj2 (parseInt10_uint _ rest (DecimalPos.Unsigned.to_uint_nonnil p) Hrest)).
    rewrite Hvalue. by rewrite Hround by lia.
Qed.

Example trim_examples :
  trim "  {} " = "{}"
  /\ trim (String (ascii_of_nat 194) (String (ascii_of_nat 160) "[]")
           ++ String (ascii_of_nat 226) (String (ascii_of_nat 128)
                (String (ascii_of_nat 168) EmptyString)))
     = "[]"
  /\ trim (String (ascii_of_nat 239) (String (ascii_of_nat 187)
             (String (ascii_of_nat 191) "a b"))) = "a b"
  /\ trim (String (ascii_of_nat 195) (String (ascii_of_nat 160) " x"))
     = String (ascii_of_nat 195) (String (ascii_of_nat 160) " x").
Proof. repeat split; vm_compute; reflexivity. Qed.

Example parseInt10_examples :
  parseInt10 "42" = Num 42 /\ parseInt10 "1700000000" = Num 1700000000
  /\ parseInt10 " -7px" = Num (-7) /\ parseInt10 "null" = NaN
  /\ parseInt10 EmptyString = NaN /\ parseInt10 "abc" = NaN
  /\ parseInt10 "-0" = Double true 0 0
  /\ parseInt10 "9007199254740993" = Double false (2 ^ 52) 1
  /\ parseInt10 "9007199254740995" = Double false (2 ^ 52 + 2) 1.
Proof. repeat split; vm_compute; reflexivity. Qed.

(** C8: without the limit header there is no snapshot; with it the
    snapshot holds the header's text as [_limit] and what
    [Number.parseInt] reads in base 10 from the two other headers:
    [NaN] for a header that is missing or that does not open with a
    numeral, and the integer [n] for a header that opens with the
    decimal numeral of [n], of a size below [2^53] (beyond, the
    nearest double). The function returns a value in every case. *)
Theorem parseRatelimitHeaders_spec (h : Headers) :
  (Headers.has h RATELIMIT_LIMIT_HEADER = false ->
   HTTPClient.parseRatelimitHeaders h = None)
  /\ (forall limit, Headers.get h RATELIMIT_LIMIT_HEADER = Some limit ->
      exists r, HTTPClient.parseRatelimitHeaders h = Some r
        /\ _limit r = limit
        /\ remaining r
           = parseInt10 (nullable_ToString (Headers.get h RATELIMIT_REMAINING_HEADER))
        /\ reset r
           = parseInt10 (nullable_ToString (Headers.get h RATELIMIT_RESET_HEADER))
        /\ (Headers.get h RATELIMIT_REMAINING_HEADER = None -> remaining r = NaN)
        /\ (Headers.get h RATELIMIT_RESET_HEADER = None -> reset r = NaN)
        /\ (forall v, Headers.get h RATELIMIT_REMAINING_HEADER = Some v ->
            unparsable v -> remaining r = NaN)
        /\ (forall v, Headers.get h RATELIMIT_RESET_HEADER = Some v ->
            unparsable v -> reset r = NaN)
        /\ (forall n rest,
              Headers.get h RATELIMIT_REMAINING_HEADER = Some (Z_ToString n ++ rest) ->
              (Z.abs n < 2 ^ 53)%Z -> starts_with_digit rest = false ->
              remaining r = Num n)
        /\ (forall n rest,
              Headers.get h RATELIMIT_RESET_HEADER = Some (Z_ToString n ++ rest) ->
              (Z.abs n < 2 ^ 53)%Z -> starts_with_digit rest = false ->
              reset r = Num n)).
Proof.
  unfold HTTPClient.parseRatelimitHeaders. split.
  - intros ->. reflexivity.
  - intros limit Hl.
    assert (Headers.has h RATELIMIT_LIMIT_HEADER = true) as ->.
    { unfold Headers.has. apply bool_decide_eq_true. unfold Headers.get in Hl. eauto. }
    rewrite Hl. cbn [negb]. eexists. split; [reflexivity|].
    cbn [_limit remaining reset].
    split; [reflexivity|]. split; [reflexivity|]. split; [reflexivity|].
    split; [intros ->; reflexivity|]. split; [intros ->; reflexivity|].
    split; [intros v -> Hv; by apply parseInt10_NaN_iff|].
    split; [intros v -> Hv; by apply parseInt10_NaN_iff|].
    split; intros n rest -> Hn Hrest; by apply parseInt10_numeral.
Qed.

Lemma parseRatelimitHeaders_spec_witness :
  exists r,
    HTTPClient.parseRatelimitHeaders
      (Headers.of_list [("X-RateLimit-Limit", "100"); ("X-RateLimit-Remaining", "42 left");
                        ("X-RateLimit-Reset", "soon")])
    = Some r
    /\ _limit r = "100" /\ remaining r = Num 42 /\ reset r = NaN.
Proof.
  destruct (proj2 (parseRatelimitHeaders_spec
                     (Headers.of_list [("X-RateLimit-Limit", "100");
                                       ("X-RateLimit-Remaining", "42 left");
                                       ("X-RateLimit-Reset", "soon")]))
              "100" eq_refl) as (r & Hr & Hl & _ & _ & _ & _ & _ & Hres & Hrem & _).
  exists r. split; [exact Hr|]. split; [exact Hl|]. split.
  - apply (Hrem 42%Z " left"); [reflexivity | reflexivity | reflexivity].
  - apply (Hres "soon"); reflexivity.
Defined.

Example parseRatelimitHeaders_examples :
  HTTPClient.parseRatelimitHeaders
    (Headers.of_list [("x-ratelimit-limit", "100"); ("x-ratelimit-remaining", "42");
                      ("x-ratelimit-reset", "1700000000")])
  = Some {| _limit := "100"; remaining := Num 42; reset := Num 1700000000 |}
  /\ HTTPClient.parseRatelimitHeaders (Headers.of_list [("x-ratelimit-remaining", "42")])
     = None.
Proof. split; reflexivity. Qed.

(** ** Decoding the body *)

Lemma no_body_true_iff (request : Request) (response : Response.t) :
  HTTPResponse.no_body request response = true
  <-> expect request = Some ExpectNone
      \/ Headers.get (Response.headers response) "content-length" = Some "0"
      \/ Response.status response = 204%Z.
Proof.
  unfold HTTPResponse.no_body.
  rewrite !orb_true_iff, !bool_decide_eq_true. tauto.
Qed.

Lemma parseBody_no_body env request response cam :
  HTTPResponse.no_body request response = true ->
  HTTPResponse.parseBody env request response cam = Return BodyUndefined.
Proof. unfold HTTPResponse.parseBody. intros ->. reflexivity. Qed.

Lemma parseBody_json env request response cam :
  HTTPResponse.no_body request response = false ->
  expect request = None \/ expect request = Some ExpectJson ->
  HTTPResponse.parseBody env request response cam = decode_json env request response cam.
Proof.
  unfold HTTPResponse.parseBody, decode_json. intros -> He.
  assert (bool_decide (expect request = Some ExpectJsonWithBigInts) = false) as Hb
    by (apply bool_decide_eq_false; destruct He as [-> | ->]; discriminate).
  destruct He as [-> | ->]; rewrite ?Hb;
    (destruct (Response.text response) as [text|]; [cbn [bind] | reflexivity]);
    destruct (JSON_parse env _); try reflexivity;
    destruct (truthy_bool _), cam; reflexivity.
Qed.

(** C9: with the expected kind left unset [parseBody] does what it
    does for the kind json: past the guard it parses the trimmed text
    as JSON and applies the camelization when the request asks for it
    and the client has one; the kind none yields [undefined] instead. *)
Theorem parseBody_unset_expect_is_json env request response cam :
  expect request = None ->
  HTTPResponse.parseBody env request response cam
  = HTTPResponse.parseBody env (with_expect request (Some ExpectJson)) response cam
  /\ (HTTPResponse.no_body request response = false ->
      HTTPResponse.parseBody env request response cam
      = decode_json env request response cam)
  /\ HTTPResponse.parseBody env (with_expect request (Some ExpectNone)) response cam
     = Return BodyUndefined.
Proof.
  intros He. split; [|split].
  - destruct (HTTPResponse.no_body request response) eqn:Hn.
    + rewrite !parseBody_no_body; auto.
      apply no_body_true_iff. apply no_body_true_iff in Hn. simpl.
      rewrite He in Hn. destruct Hn as [Hn | Hn]; [discriminate | auto].
    + rewrite !parseBody_json; auto.
      apply not_true_is_false. intros Hn'. apply not_true_iff_false in Hn. apply Hn.
      apply no_body_true_iff. apply no_body_true_iff in Hn'. simpl in Hn'.
      destruct Hn' as [Hn' | Hn']; [discriminate | auto].
  - intros Hn. apply parseBody_json; auto.
  - apply parseBody_no_body. apply no_body_true_iff. left. reflexivity.
Qed.

Lemma parseBody_unset_expect_is_json_witness :
  HTTPResponse.parseBody (Demo.env None []) (Demo.request "example.com/x")
    (Demo.respond 200 [] " {} ") None
  = Return (BodyJson (JObject [])).
Proof.
  destruct (parseBody_unset_expect_is_json (Demo.env None []) (Demo.request "example.com/x")
              (Demo.respond 200 [] " {} ") None eq_refl) as (_ & H & _).
  rewrite H; reflexivity.
Defined.

(** C7, amended: where the camelization function returns defined values,
    the body of a constructed typed response is [undefined] exactly
    when the expected kind is none, or the content-length header is
    the text 0, or the status is 204. *)
Theorem body_undefined_iff env request response rl cam r :
  camelize_defined request cam ->
  HTTPResponse.init env request response rl cam = Return r ->
  HTTPResponse.body r = BodyUndefined
  <-> expect request = Some ExpectNone
      \/ Headers.get (Response.headers response) "content-length" = Some "0"
      \/ Response.status response = 204%Z.
Proof.
  intros Hcam. rewrite <- no_body_true_iff.
  unfold HTTPResponse.init.
  destruct (HTTPResponse.parseBody env request response cam) as [b|] eqn:Hb; [|discriminate].
  cbn [bind]. intros [= <-]. cbn [HTTPResponse.new HTTPResponse.body].
  revert Hb. unfold HTTPResponse.parseBody.
  destruct (HTTPResponse.no_body request response) eqn:Hn.
  { intros [= <-]. tauto. }
  intros Hb. split; [|discriminate]. intros ->. exfalso. revert Hb.
  destruct (expect request) as [[]|];
    try destruct (DOMParser_defined env);
    try (destruct (Response.text response) as [text|]; cbn [bind]);
    try discriminate;
    repeat match goal with
      | |- context [match ?x with _ => _ end] => destruct x eqn:?
      end; try discriminate;
    by eapply Hcam.
Qed.

Lemma body_undefined_iff_witness :
  exists r,
    HTTPResponse.init (Demo.env None []) (Demo.request_camelized "example.com/x")
      (Demo.respond 204 [] EmptyString) None (Some Demo.camelize_same) = Return r
    /\ HTTPResponse.body r = BodyUndefined.
Proof.
  eexists. split; [reflexivity|].
  eapply (body_undefined_iff (Demo.env None []) (Demo.request_camelized "example.com/x")
            (Demo.respond 204 [] EmptyString) None (Some Demo.camelize_same)).
  - intros camelize [= <-] _ j o. unfold Demo.camelize_same. discriminate.
  - reflexivity.
  - right; right. reflexivity.
Defined.

(** C7 as stated fails: with a camelization function that returns
    nothing, the body is [undefined] for the kind json, a content
    length of 2 and the status 200. *)
Lemma body_undefined_by_camelizer :
  exists r,
    HTTPResponse.init (Demo.env None []) (Demo.request_camelized "example.com/x")
      (Demo.respond 200 [("content-length", "2")] "{}") None (Some Demo.camelize_nothing)
    = Return r
    /\ HTTPResponse.body r = BodyUndefined
    /\ expect (Demo.request_camelized "example.com/x") = Some ExpectJson
    /\ Headers.get (Response.headers (Demo.respond 200 [("content-length", "2")] "{}"))
         "content-length" = Some "2"
    /\ Response.status (Demo.respond 200 [("content-length", "2")] "{}") = 200%Z.
Proof. eexists. repeat split. Qed.

(** ** The CSRF token store *)






(** ** The URL builder *)

(** C10: for a URL that contains the CDN host, [formatRequestUrl]
    returns the parse of the URL, or of the URL prefixed with the
    protocol when it does not parse; the result is the same for every
    request with this URL, whatever its search parameters, account
    token and device type, and no object of the caller changes. *)
Theorem formatRequestUrl_cdn env opts request request' protocol h :
  includes (url request) (HTTPClient.cdn (HTTPClient.domains opts)) = true ->
  url request' = url request ->
  HTTPClient.formatRequestUrl env opts request protocol h
  = (match URL_parse env (url request) with
     | Some u => Return u
     | None =>
         match URL_parse env (protocol ++ "://" ++ remove_protocol (url request)) with
         | Some u => Return u
         | None => Throw (TypeError (protocol ++ "://" ++ remove_protocol (url request)))
         end
     end, h)
  /\ HTTPClient.formatRequestUrl env opts request' protocol h
     = HTTPClient.formatRequestUrl env opts request protocol h.
Proof.
  intros Hcdn Hurl. unfold HTTPClient.formatRequestUrl. rewrite Hurl, Hcdn.
  split; [|reflexivity].
  unfold canParseURL. destruct (URL_parse env (url request)) as [u|] eqn:Hu.
  - rewrite bool_decide_eq_true_2 by eauto. reflexivity.
  - rewrite bool_decide_eq_false_2 by (intros [? ?]; discriminate). reflexivity.
Qed.

Lemma formatRequestUrl_cdn_witness :
  HTTPClient.formatRequestUrl (Demo.env None []) (Demo.configure None None (Some "account"))
    (Demo.request_with_params "tr.rbxcdn.com/asset" 0 "acct1") "https"
    {[ 0 := [("size", "large")] ]}
  = (Return {| URL.protocol := "https:"; URL.hostname := "tr.rbxcdn.com";
               URL.port := EmptyString; URL.pathname := "/asset";
               URL.searchParams := []; URL.hash := EmptyString |},
     {[ 0 := [("size", "large")] ]}).
Proof.
  rewrite (proj1 (formatRequestUrl_cdn (Demo.env None [])
                    (Demo.configure None None (Some "account"))
                    (Demo.request_with_params "tr.rbxcdn.com/asset" 0 "acct1")
                    (Demo.request "tr.rbxcdn.com/asset") "https"
                    {[ 0 := [("size", "large")] ]} eq_refl eq_refl)).
  reflexivity.
Defined.

(** ** The orchestrator *)

Section Orchestrator.

Variable env : Env.
Variable opts : HTTPClient.HTTPClientConstructorOptions.

Lemma loop_S fuel request headers retries st :
  HTTPClient.httpRequest_loop env opts (S fuel) request headers retries st
  = let '(response, st) := dispatch env opts request headers st in
    match response with
    | Throw e => (Some (Throw (Native e)), st)
    | Return response =>
        match HTTPClient.csrf_rotation opts request response with
        | Some csrfToken =>
            HTTPClient.httpRequest_loop env opts fuel request
              (Headers.set headers CSRF_TOKEN_HEADER_NAME csrfToken) retries
              (HTTPClient.set_csrfTokens
                 (HTTPClient.setCsrfToken env (HTTPClient.csrfTokens st) (Some csrfToken)
                    (includeCredentials request) (accountToken request)) st)
        | None =>
            match HTTPClient.challenge_retry env opts request response headers with
            | Throw e => (Some (Throw (Native e)), st)
            | Return (Some headers) =>
                HTTPClient.httpRequest_loop env opts fuel request headers retries st
            | Return None =>
                if negb (bool_decide (errorHandling request = Some ErrorHandlingNone))
                   && negb (status_ok (HTTPResponse.status response))
                then
                  if HTTPClient.retry_applies retries (status_code (HTTPResponse.status response))
                  then HTTPClient.httpRequest_loop env opts fuel request headers
                         (decrement <$> retries) st
                  else (Some (Throw (thrown_for env request response)), st)
                else
                  (Some (HTTPClient.lift (HTTPResponse.init env request
                                 (HTTPResponse._response response)
                                 (HTTPClient.parseRatelimitHeaders
                                    (HTTPResponse.headers response))
                                 (HTTPClient.camelizeObject opts))),
                   st)
            end
        end
    end.
Proof.
  cbn [HTTPClient.httpRequest_loop]. unfold dispatch, thrown_for, selected_parser.
  destruct (HTTPClient._httpRequest env opts _ st) as [[response|e] st1]; [|reflexivity].
  destruct (HTTPClient.csrf_rotation opts request response); [reflexivity|].
  destruct (HTTPClient.challenge_retry env opts request response headers) as [[headers2|]|e2];
    [reflexivity | | reflexivity].
  destruct (_ && _); [|reflexivity].
  destruct (HTTPClient.retry_applies _ _); [reflexivity|].
  destruct (default BEDEV1 (errorHandling request));
    rewrite ?bool_decide_eq_true_2 by done; rewrite ?bool_decide_eq_false_2 by done;
    match goal with |- context [match ?p with _ => _ end] => destruct p end; reflexivity.
Qed.

(** A dispatch leaves the token store alone, and a dispatch that
    returns has handed one request to the transport. *)
Lemma _httpRequest_state request st c st' :
  HTTPClient._httpRequest env opts request st = (c, st') ->
  HTTPClient.csrfTokens st' = HTTPClient.csrfTokens st
  /\ (returned c = true ->
      length (HTTPClient.dispatched st') = S (length (HTTPClient.dispatched st))).
Proof.
  unfold HTTPClient._httpRequest.
  destruct (HTTPClient.formatRequestUrl env opts request "https" (HTTPClient.heap st))
    as [[u|e] h].
  - destruct (match body request with
              | Some body => HTTPClient.formatBody env body
              | None => (None, None)
              end) as [newBody contentType].
    destruct (HTTPClient.transport env opts request _ _ _) as [raw|e];
      intros [= <- <-]; simpl; split; auto; try discriminate;
      intros _; rewrite length_app; simpl; lia.
  - intros [= <- <-]. simpl. split; [reflexivity | discriminate].
Qed.

Lemma dispatch_state request headers st response st' :
  dispatch env opts request headers st = (Return response, st') ->
  HTTPClient.csrfTokens st' = HTTPClient.csrfTokens st
  /\ length (HTTPClient.dispatched st') = S (length (HTTPClient.dispatched st)).
Proof.
  intros H. apply _httpRequest_state in H as [H1 H2]. split; auto.
Qed.

Lemma is_retry_code_not_403 code : is_retry_code code = true -> (code =? 403)%Z = false.
Proof.
  unfold is_retry_code, RETRY_ERROR_CODES. rewrite bool_decide_eq_true.
  intros H. apply Z.eqb_neq. intros ->.
  repeat (apply elem_of_cons in H as [H | H]; [discriminate|]).
  by apply elem_of_nil in H.
Qed.

Lemma transient_no_rotation request response :
  transient env opts request response ->
  HTTPClient.csrf_rotation opts request response = None.
Proof.
  intros (_ & Hcode & _). unfold HTTPClient.csrf_rotation.
  rewrite (is_retry_code_not_403 _ Hcode). by rewrite andb_false_r.
Qed.

Lemma non_main_host_no_retry request response headers :
  HTTPClient.isRobloxApiRequest opts request = false ->
  HTTPClient.csrf_rotation opts request response = None
  /\ HTTPClient.challenge_retry env opts request response headers = Return None.
Proof.
  intros H. unfold HTTPClient.csrf_rotation, HTTPClient.challenge_retry.
  rewrite H. split; reflexivity.
Qed.


(** *** The message of the error *)

Lemma concat_empty_cons (b : string) (bs : list string) :
  String.concat EmptyString (b :: bs) = b ++ String.concat EmptyString bs.
Proof.
  destruct bs; simpl; [by rewrite append_nil_r | reflexivity].
Qed.

Lemma errorAsString_fold error acc :
  fold_left
    (fun errorAsString '(key, value) =>
       errorAsString ++ key ++ ": " ++ DQUOTE ++ HTTPClient.valueAsString env value ++ DQUOTE)
    error acc
  = acc ++ render_error env error.
Proof.
  revert acc. induction error as [|[k v] error IH]; intros acc.
  - simpl. by rewrite append_nil_r.
  - cbn [fold_left]. rewrite IH. unfold render_error. cbn [List.map].
    rewrite concat_empty_cons, append_assoc. reflexivity.
Qed.

Lemma errorAsString_render error :
  HTTPClient.errorAsString env error = render_error env error.
Proof. unfold HTTPClient.errorAsString. by rewrite errorAsString_fold. Qed.

Lemma concat_LF_cons b bs : String.concat LF (b :: bs) = b ++ prefixed bs.
Proof.
  revert b. induction bs as [|b' bs IH]; intros b; simpl.
  - by rewrite append_nil_r.
  - simpl in IH. by rewrite IH.
Qed.

Lemma errorsAsString_fold_nonempty errors c acc :
  fold_left
    (fun errorsAsString error =>
       errorsAsString
         ++ (if truthy (Some errorsAsString) then LF else EmptyString)
         ++ HTTPClient.errorAsString env error)
    errors (String c acc)
  = String c acc ++ prefixed (List.map (render_error env) errors).
Proof.
  revert c acc. induction errors as [|e errors IH]; intros c acc.
  - simpl. by rewrite append_nil_r.
  - cbn [fold_left List.map prefixed fold_right truthy].
    change (String c acc ++ LF ++ HTTPClient.errorAsString env e)
      with (String c (acc ++ LF ++ HTTPClient.errorAsString env e)).
    rewrite IH, errorAsString_render. rewrite !append_cons. f_equal.
    by rewrite !append_assoc.
Qed.

Lemma errorsAsString_render errors :
  HTTPClient.errorsAsString env errors = render_errors env errors.
Proof.
  unfold HTTPClient.errorsAsString, render_errors.
  induction errors as [|e errors IH]; [reflexivity|].
  cbn [fold_left List.map truthy]. rewrite errorAsString_render, !append_nil_l.
  destruct (render_error env e) as [|c b] eqn:He.
  - cbn [drop_empty]. exact IH.
  - cbn [drop_empty]. by rewrite errorsAsString_fold_nonempty, concat_LF_cons.
Qed.

Lemma rest_error_message request response errors rl :
  RESTError.message (HTTPClient.rest_error env request response errors rl)
  = render_message env request response errors.
Proof.
  unfold HTTPClient.rest_error, render_message. cbn [RESTError.message].
  rewrite errorsAsString_render.
  destruct (render_errors env _); reflexivity.
Qed.

(** C3, amended: when the mode is not none, the response is not ok and
    no retry applies, the loop ends at once, after this one dispatch.
    It calls the parser that the mode selects (BEDEV1 unless the mode
    is BEDEV2). When the parser returns, the loop raises one REST
    error, which carries the errors of the parser, the status code,
    the typed response of the dispatch and the rate-limit snapshot.
    Its message names the status, the method and the URL and, when the
    errors render to some text, goes on after a blank line with the
    mode and the blocks of the errors: in a block the pairs
    [key: "value"] follow one another with nothing between them, and a
    single line break separates two blocks. When the parser throws,
    the loop throws the error of the parser. *)
Theorem terminal_error fuel request headers retries st response st' :
  errorHandling request <> Some ErrorHandlingNone ->
  dispatch env opts request headers st = (Return response, st') ->
  status_ok (HTTPResponse.status response) = false ->
  HTTPClient.csrf_rotation opts request response = None ->
  HTTPClient.challenge_retry env opts request response headers = Return None ->
  HTTPClient.retry_applies retries (status_code (HTTPResponse.status response)) = false ->
  (forall errors,
     selected_parser env request (HTTPResponse._response response) = Return errors ->
     exists e,
       HTTPClient.httpRequest_loop env opts (S fuel) request headers retries st
       = (Some (Throw (Rest e)), st')
       /\ RESTError.errors e = Some errors
       /\ RESTError.httpCode e = Some (status_code (HTTPResponse.status response))
       /\ RESTError.response e = Some response
       /\ RESTError.ratelimit e
          = HTTPClient.parseRatelimitHeaders (HTTPResponse.headers response)
       /\ RESTError.isHttpError e = true
       /\ RESTError.message e = render_message env request response errors)
  /\ (forall error,
       selected_parser env request (HTTPResponse._response response) = Throw error ->
       HTTPClient.httpRequest_loop env opts (S fuel) request headers retries st
       = (Some (Throw (Native error)), st'))
  /\ length (HTTPClient.dispatched st') = S (length (HTTPClient.dispatched st)).
Proof.
  intros Hmode Hd Hok Hrot Hch Hretry.
  destruct (dispatch_state _ _ _ _ _ Hd) as [_ Hlen].
  assert (HTTPClient.httpRequest_loop env opts (S fuel) request headers retries st
          = (Some (Throw (thrown_for env request response)), st')) as Hrun.
  { rewrite loop_S, Hd, Hrot, Hch, Hok, Hretry.
    by rewrite (bool_decide_eq_false_2 _ Hmode). }
  split; [|split; [|exact Hlen]].
  - intros errors Hp. eexists. split.
    { rewrite Hrun. unfold thrown_for. rewrite Hp. reflexivity. }
    repeat (split; [reflexivity|]). apply rest_error_message.
  - intros error Hp. rewrite Hrun. unfold thrown_for. by rewrite Hp.
Qed.

(** *** Transient failures and the mode none *)

(** The typed response of a dispatch wraps the transport's response,
    with no body decoded. *)
Lemma dispatch_response request headers st response st' :
  dispatch env opts request headers st = (Return response, st') ->
  response
  = HTTPResponse.new (with_expect_headers request ExpectNone headers)
      (HTTPResponse._response response) BodyUndefined None.
Proof.
  unfold dispatch, HTTPClient._httpRequest.
  destruct (HTTPClient.formatRequestUrl env opts _ "https" (HTTPClient.heap st)) as [[u|e] h];
    [|discriminate].
  destruct (match body (with_expect_headers request ExpectNone headers) with
            | Some body => HTTPClient.formatBody env body
            | None => (None, None)
            end) as [newBody contentType].
  destruct (HTTPClient.transport env opts _ _ _ _) as [raw|e]; [|discriminate].
  unfold HTTPResponse.init. rewrite parseBody_no_body.
  - intros [= <- _]. reflexivity.
  - apply no_body_true_iff. left. reflexivity.
Qed.

(** On the double of a whole number up to [2^53], [retries--] counts
    down by one. *)
Lemma decrement_Num (m : nat) :
  (Z.of_nat (S m) <= 2 ^ 53)%Z ->
  decrement (Num (Z.of_nat (S m))) = Num (Z.of_nat m)
  /\ truthy_number (Num (Z.of_nat (S m))) = true
  /\ is_positive (Num (Z.of_nat (S m))) = true.
Proof.
  intros Hm. unfold Num.
  replace (Z.of_nat (S m) <? 0)%Z with false by (symmetry; apply Z.ltb_ge; lia).
  replace (Z.of_nat m <? 0)%Z with false by (symmetry; apply Z.ltb_ge; lia).
  rewrite !Z.abs_eq by lia. split; [|split].
  - unfold decrement. change (Z.min 0 0) with 0%Z.
    replace (Z.of_nat (S m) * 2 ^ (0 - 0) - 2 ^ (- 0))%Z with (Z.of_nat m)
      by (change (2 ^ (0 - 0))%Z with 1%Z; change (2 ^ (- 0))%Z with 1%Z; lia).
    destruct (Z.of_nat m =? 0)%Z eqn:Hz; [apply Z.eqb_eq in Hz; by rewrite Hz|].
    replace (Z.of_nat m <? 0)%Z with false by (symmetry; apply Z.ltb_ge; lia).
    rewrite Z.abs_eq by lia. unfold round53.
    by replace (Z.of_nat m <? 2 ^ 53)%Z with true by (symmetry; apply Z.ltb_lt; lia).
  - cbn [truthy_number]. apply negb_true_iff, Z.eqb_neq. lia.
  - cbn [is_positive negb andb]. apply Z.ltb_lt. lia.
Qed.






(** The result of a call does not depend on the fuel, once there is
    enough of it. *)
Lemma loop_fuel_mono request extra :
  forall fuel headers retries st c,
    fst (HTTPClient.httpRequest_loop env opts fuel request headers retries st) = Some c ->
    HTTPClient.httpRequest_loop env opts (fuel + extra) request headers retries st
    = HTTPClient.httpRequest_loop env opts fuel request headers retries st.
Proof.
  induction fuel as [|fuel IH]; intros headers retries st c; [discriminate|].
  change (S fuel + extra) with (S (fuel + extra)). rewrite !loop_S.
  destruct (dispatch env opts request headers st) as [[r|e] st1]; [|reflexivity].
  destruct (HTTPClient.csrf_rotation opts request r); [apply IH|].
  destruct (HTTPClient.challenge_retry env opts request r headers) as [[headers2|]|e2];
    [apply IH | | first [reflexivity | discriminate | done]].
  destruct (_ && _); [|reflexivity].
  destruct (HTTPClient.retry_applies _ _); [apply IH | reflexivity].
Qed.

Lemma httpRequest_fuel_mono request fuel extra st c :
  fst (HTTPClient.httpRequest env opts fuel request st) = Some c ->
  HTTPClient.httpRequest env opts (fuel + extra) request st
  = HTTPClient.httpRequest env opts fuel request st.
Proof. unfold HTTPClient.httpRequest. apply loop_fuel_mono. Qed.





(** *** The caller's objects *)

(** [formatRequestUrl] changes the heap at most at the location of the
    caller's [URLSearchParams] object. *)
Lemma search_set_frame request h k v s h' :
  search_frame request h s h' ->
  search_frame request h (search_set k v s h').1 (search_set k v s h').2.
Proof.
  unfold search_frame.
  destruct (search request) as [[r|l]|].
  - intros [[p ->] ->]. simpl. eauto.
  - intros [-> H]. simpl. split; [reflexivity|].
    intros l' Hl'. rewrite lookup_insert_ne by done. by apply H.
  - intros [[p ->] ->]. simpl. eauto.
Qed.

Lemma formatRequestUrl_frame request protocol h :
  match search request with
  | Some (SearchParams l) =>
      forall l', l' <> l ->
        snd (HTTPClient.formatRequestUrl env opts request protocol h) !! l' = h !! l'
  | _ => snd (HTTPClient.formatRequestUrl env opts request protocol h) = h
  end.
Proof.
  unfold HTTPClient.formatRequestUrl.
  destruct (includes (url request) _).
  { destruct (search request) as [[r|l]|]; reflexivity. }
  match goal with
  | |- context [let '(s, g) := ?stage1 in _] =>
      assert (search_frame request h stage1.1 stage1.2) as H1;
      [|destruct stage1 as [s1 h1]]
  end.
  { unfold search_frame.
    destruct (search request) as [[r|l]|]; repeat case_match; simpl; eauto;
      (split; [reflexivity | intros l' Hl'; by rewrite lookup_insert_ne]). }
  match goal with
  | |- context [let '(s, g) := ?stage2 in _] =>
      assert (search_frame request h stage2.1 stage2.2) as H2;
      [|destruct stage2 as [s2 h2]]
  end.
  { repeat case_match; try (by apply search_set_frame); exact H1. }
  simpl in H2 |- *. unfold search_frame in H2.
  destruct (search request) as [[r|l]|]; destruct H2 as [_ H2]; exact H2.
Qed.

End Orchestrator.

(** ** Runs in the concrete environment *)




Example recovers_on_second_attempt :
  fst (HTTPClient.httpRequest
         (Demo.env None [Demo.respond 503 [] EmptyString; Demo.respond 200 [] "hello"])
         Demo.options 2 (Demo.request_text_retrying "example.com/x" 2) Demo.state0)
  = Some (Return (HTTPResponse.new (Demo.request_text_retrying "example.com/x" 2)
                    (Demo.respond 200 [] "hello") (BodyText "hello") None)).
Proof. reflexivity. Qed.

Lemma terminal_error_witness :
  exists e st',
    HTTPClient.httpRequest_loop (Demo.env None [Demo.respond 400 [] "two errors"]) Demo.options
      1 (Demo.request "example.com/x") ∅ None Demo.state0
    = (Some (Throw (Rest e)), st')
    /\ RESTError.httpCode e = Some 400%Z
    /\ RESTError.message e
       = "HTTP 400 from GET https://example.com/" ++ LF ++ LF ++ "BEDEV1 errors:" ++ LF
         ++ Demo.first_block ++ LF ++ Demo.second_block.
Proof.
  pose (E := Demo.env None [Demo.respond 400 [] "two errors"]).
  let d := eval vm_compute in
    (dispatch E Demo.options (Demo.request "example.com/x") ∅ Demo.state0) in
  match d with
  | (Return ?r, ?st') =>
      destruct (terminal_error E Demo.options 0 (Demo.request "example.com/x") ∅ None
                  Demo.state0 r st')
        as (Hrest & _ & _);
      [discriminate | reflexivity | reflexivity | reflexivity | reflexivity | reflexivity |];
      destruct (Hrest _ eq_refl) as (e & Hrun & _ & Hcode & _ & _ & _ & Hmsg);
      exists e, st'
  end.
  split; [exact Hrun|]. split; [exact Hcode|]. rewrite Hmsg. reflexivity.
Defined.

(** C3 as stated fails: the blocks of two errors are separated by one
    line break, not by a blank line. And when the parser throws, as on
    a response that announces JSON and is not JSON, [httpRequest]
    throws the error of the parser and raises no REST error. *)
Lemma error_blocks_single_line_break :
  (exists errors,
     Demo.parse_errors (Demo.respond 400 [] "two errors") = Return errors
     /\ HTTPClient.errorsAsString (Demo.env None []) errors
        = Demo.first_block ++ LF ++ Demo.second_block
     /\ render_errors_blank_lines (Demo.env None []) errors
        = Demo.first_block ++ LF ++ LF ++ Demo.second_block)
  /\ (exists e,
      fst (HTTPClient.httpRequest (Demo.env None [Demo.respond 400 [] "two errors"])
             Demo.options 1 (Demo.request "example.com/x") Demo.state0)
      = Some (Throw (Rest e))
      /\ RESTError.message e
         = "HTTP 400 from GET https://example.com/" ++ LF ++ LF ++ "BEDEV1 errors:" ++ LF
           ++ Demo.first_block ++ LF ++ Demo.second_block)
  /\ fst (HTTPClient.httpRequest
            (Demo.env None [Demo.respond 400 [("content-type", "application/json")] "<html>"])
            Demo.options 1 (Demo.request "example.com/x") Demo.state0)
     = Some (Throw (Native (SyntaxError "<html>"))).
Proof.
  split; [|split].
  - eexists. split; [reflexivity|]. split; reflexivity.
  - eexists. split; reflexivity.
  - reflexivity.
Qed.



(** C5 fails on the code: a [URLSearchParams] object that the caller
    passes as [search] is the object that [formatRequestUrl] sets the
    account parameter on, so the caller's object has one more entry
    after [formatRequestUrl] and after [httpRequest]; a plain object
    passed as [search] is copied and nothing of the caller changes. *)
Theorem formatRequestUrl_changes_caller_params :
  Demo.caller_heap !! 0 = Some [("size", "large")]
  /\ snd (HTTPClient.formatRequestUrl (Demo.env None []) (Demo.configure None None (Some "account"))
            (Demo.request_with_params "example.com/x" 0 "acct1") "https" Demo.caller_heap)
     !! 0 = Some [("size", "large"); ("account", "acct1")]
  /\ HTTPClient.heap
       (snd (HTTPClient.httpRequest (Demo.env None [Demo.respond 200 [] "{}"])
               (Demo.configure None None (Some "account")) 1
               (Demo.request_with_params "example.com/x" 0 "acct1") Demo.state_with_params))
     !! 0 = Some [("size", "large"); ("account", "acct1")]
  /\ snd (HTTPClient.formatRequestUrl (Demo.env None []) (Demo.configure None None (Some "account"))
            (Demo.request_with_record "example.com/x" [("size", VString "large")] "acct1")
            "https" Demo.caller_heap)
     = Demo.caller_heap.
Proof. repeat split; vm_compute; reflexivity. Qed.

(** ** Further properties *)

(** *** The CSRF token store, account by account *)



(** X4: a write that is not authorized changes no authorized read,
    for any account; and an anonymous read returns the token written
    last, whatever account the write and the read name and whether or
    not the write was authorized. *)
Theorem setCsrfToken_anonymous env opts tokens t a :
  (forall authorized b,
     truthy_bool authorized = false ->
     HTTPClient.getCsrfToken env opts
       (HTTPClient.setCsrfToken env tokens t authorized a) (Some true) b
     = HTTPClient.getCsrfToken env opts tokens (Some true) b)
  /\ (forall authorized c,
      HTTPClient.getCsrfToken env opts
        (HTTPClient.setCsrfToken env tokens t authorized a) (Some false) c
      = HTTPClient.TokenText t
      /\ HTTPClient.getCsrfToken env opts
           (HTTPClient.setCsrfToken env tokens t authorized a) None c
         = HTTPClient.TokenText t).
Proof.
  split.
  - intros authorized b H. unfold HTTPClient.getCsrfToken, HTTPClient.setCsrfToken.
    rewrite H. reflexivity.
  - intros authorized c. unfold HTTPClient.getCsrfToken, HTTPClient.setCsrfToken.
    cbn [default from_option id HTTPClient.ip]. by rewrite andb_false_r.
Qed.


(** *** The header assembler *)

Lemma Headers_get_set_eq (h : Headers) k v : Headers.get (Headers.set h k v) k = Some v.
Proof. unfold Headers.get, Headers.set. apply lookup_insert_eq. Qed.

Lemma Headers_get_set_ne (h : Headers) k v name :
  toLowerCase k <> toLowerCase name ->
  Headers.get (Headers.set h k v) name = Headers.get h name.
Proof. intros H. unfold Headers.get, Headers.set. by apply lookup_insert_ne. Qed.

Lemma fold_set_notin (l : list (string * string)) (h : Headers) name :
  ~ In (toLowerCase name) (List.map (fun p => toLowerCase (fst p)) l) ->
  Headers.get (fold_left (fun h '(key, value) => Headers.set h key value) l h) name
  = Headers.get h name.
Proof.
  revert h. induction l as [|[k v] l IH]; intros h Hn; [reflexivity|].
  simpl in *. rewrite IH by tauto. apply Headers_get_set_ne. intros E. apply Hn. by left.
Qed.

Lemma fold_set_last (l1 l2 : list (string * string)) k v (h : Headers) :
  ~ In (toLowerCase k) (List.map (fun p => toLowerCase (fst p)) l2) ->
  Headers.get
    (fold_left (fun h '(key, value) => Headers.set h key value) (l1 ++ (k, v) :: l2)%list h) k
  = Some v.
Proof.
  intros Hn. rewrite fold_left_app. simpl. rewrite fold_set_notin by exact Hn.
  apply Headers_get_set_eq.
Qed.

(** X6: a content type computed from the body always wins: whatever
    the caller's headers and the signer's headers say, the assembled
    headers carry this content type. *)
Theorem handleRequestHeaders_content_type opts request (ct : string) newBody :
  ct <> EmptyString ->
  Headers.get (HTTPClient.handleRequestHeaders opts request (Some ct) newBody) "Content-Type"
  = Some ct.
Proof.
  intros Hct. unfold HTTPClient.handleRequestHeaders.
  destruct ct as [|c ct]; [done|]. apply lookup_insert_eq.
Qed.

(** X7: a header of the signer overwrites the caller's header and the
    user agent of the same name; of several signer headers with one
    name the last one counts. Only the computed content type stands
    above the signer. *)
Theorem handleRequestHeaders_signer opts request contentType newBody generate l1 k v l2 :
  HTTPClient.hbaClient opts = Some generate ->
  generate (url request) (method request) (includeCredentials request) newBody
  = (l1 ++ (k, v) :: l2)%list ->
  ~ In (toLowerCase k) (List.map (fun p => toLowerCase (fst p)) l2) ->
  toLowerCase k <> "content-type" \/ truthy contentType = false ->
  Headers.get (HTTPClient.handleRequestHeaders opts request contentType newBody) k = Some v.
Proof.
  intros Hg Hl Hlast Hct. unfold HTTPClient.handleRequestHeaders.
  rewrite Hg, Hl.
  destruct contentType as [[|c ct]|].
  - by apply fold_set_last.
  - destruct Hct as [Hct | Hct]; [|discriminate].
    rewrite Headers_get_set_ne by (intros E; apply Hct; by rewrite <- E).
    by apply fold_set_last.
  - by apply fold_set_last.
Qed.

Lemma handleRequestHeaders_passes opts request contentType newBody name :
  toLowerCase name <> "user-agent" ->
  toLowerCase name <> "content-type" ->
  (forall generate, HTTPClient.hbaClient opts = Some generate ->
     ~ In (toLowerCase name)
         (List.map (fun p => toLowerCase (fst p))
            (generate (url request) (method request) (includeCredentials request) newBody))) ->
  Headers.get (HTTPClient.handleRequestHeaders opts request contentType newBody) name
  = Headers.get (HTTPClient.initial_headers request) name.
Proof.
  intros Hua Hct Hsig. unfold HTTPClient.handleRequestHeaders, HTTPClient.initial_headers.
  set (start := match headers request with
                | Some (HeadersRecord r) => Headers.of_record (filterObject r)
                | Some (HeadersObject h) => h
                | None => ∅
                end).
  assert (forall h h' : Headers,
            Headers.get h' name = Headers.get h name ->
            Headers.get
              (match contentType with
               | Some (String _ _ as ct) => Headers.set h' "content-type" ct
               | _ => h'
               end) name = Headers.get h name) as Hlast.
  { intros h h' E. destruct contentType as [[|c ct]|]; try exact E.
    rewrite Headers_get_set_ne; [exact E|]. intros E'. apply Hct. by rewrite <- E'. }
  assert (forall h h' : Headers,
            Headers.get h' name = Headers.get h name ->
            Headers.get
              (match HTTPClient.hbaClient opts with
               | Some generateBaseHeaders =>
                   fold_left (fun h '(key, value) => Headers.set h key value)
                     (generateBaseHeaders (url request) (method request)
                        (includeCredentials request) newBody) h'
               | None => h'
               end) name = Headers.get h name) as Hmid.
  { intros h h' E. destruct (HTTPClient.hbaClient opts) as [g|] eqn:Hg; [|exact E].
    rewrite fold_set_notin by (by apply Hsig). exact E. }
  assert (forall v, Headers.get (Headers.set start USER_AGENT_HEADER_NAME v) name
                    = Headers.get start name) as Hset.
  { intros v. apply Headers_get_set_ne. intros E. apply Hua. by rewrite <- E. }
  replace (match headers request with
           | Some (HeadersRecord r) => Headers.of_record (filterObject r)
           | Some (HeadersObject h) => h
           | None => Headers.of_record (filterObject [])
           end) with start by (subst start; destruct (headers request) as [[]|]; reflexivity).
  replace (match headers request with
           | Some (HeadersRecord r) => Headers.of_record (filterObject r)
           | Some (HeadersObject h) => h
           | None => ∅
           end) with start by reflexivity.
  apply Hlast, Hmid.
  repeat case_match; auto.
Qed.

(** X8: the assembler passes the caller's headers through: a header
    that is neither the user agent nor the content type, and that the
    signer does not return, has in the assembled headers the value it
    has in the caller's filtered headers (none, if the caller gave
    [null] or [undefined] for it). *)
Theorem handleRequestHeaders_frame opts request contentType newBody name :
  toLowerCase name <> "user-agent" ->
  toLowerCase name <> "content-type" ->
  (forall generate, HTTPClient.hbaClient opts = Some generate ->
     ~ In (toLowerCase name)
         (List.map (fun p => toLowerCase (fst p))
            (generate (url request) (method request) (includeCredentials request) newBody))) ->
  Headers.get (HTTPClient.handleRequestHeaders opts request contentType newBody) name
  = Headers.get (HTTPClient.initial_headers request) name.
Proof. apply handleRequestHeaders_passes. Qed.

(** *** The URL builder *)

Lemma formatRequestUrl_ignores_headers env opts request e h protocol heap :
  HTTPClient.formatRequestUrl env opts (with_expect_headers request e h) protocol heap
  = HTTPClient.formatRequestUrl env opts request protocol heap.
Proof. reflexivity. Qed.

(** X9: in development mode, for a URL outside the CDN host, the URL
    built for the host [localhost] never has the scheme https. *)
Theorem formatRequestUrl_dev_localhost env opts request protocol h u :
  includes (url request) (HTTPClient.cdn (HTTPClient.domains opts)) = false ->
  HTTPClient.isDev opts = Some true ->
  fst (HTTPClient.formatRequestUrl env opts request protocol h) = Return u ->
  URL.hostname u = "localhost" ->
  URL.protocol u <> "https:".
Proof.
  intros Hcdn Hdev. unfold HTTPClient.formatRequestUrl. rewrite Hcdn, Hdev.
  repeat match goal with
         | |- context [let '(s, g) := ?stage in _] => destruct stage
         end.
  cbn [fst truthy_bool default andb].
  match goal with
  | |- context [bind ?c _] => destruct c as [parsed|]; [|discriminate]
  end.
  cbn [bind URL.hostname URL.protocol].
  destruct (String.eqb (URL.hostname parsed) "localhost") eqn:Hh;
    destruct (String.eqb (URL.protocol parsed) "https:") eqn:Hp;
    cbn [andb]; intros [= <-]; cbn [URL.hostname URL.protocol]; intros Hl.
  - discriminate.
  - by apply String.eqb_neq.
  - apply String.eqb_neq in Hh. contradiction.
  - by apply String.eqb_neq.
Qed.

(** **** [URLSearchParams.prototype.set] *)

Lemma filter_key_comm {V} (k k' : string) (l : list (string * V)) :
  List.filter (fun p => negb (String.eqb (fst p) k))
    (List.filter (fun p => negb (String.eqb (fst p) k')) l)
  = List.filter (fun p => negb (String.eqb (fst p) k'))
      (List.filter (fun p => negb (String.eqb (fst p) k)) l).
Proof.
  induction l as [|[a b] l IH]; [reflexivity|]. simpl.
  destruct (String.eqb a k) eqn:Ea, (String.eqb a k') eqn:Eb; simpl;
    rewrite ?Ea, ?Eb; simpl; by rewrite ?IH.
Qed.

Lemma filter_key_idem {V} (k : string) (l : list (string * V)) :
  List.filter (fun p => negb (String.eqb (fst p) k))
    (List.filter (fun p => negb (String.eqb (fst p) k)) l)
  = List.filter (fun p => negb (String.eqb (fst p) k)) l.
Proof.
  induction l as [|[a b] l IH]; [reflexivity|]. simpl.
  destruct (String.eqb a k) eqn:Ea; simpl; rewrite ?Ea; simpl; by rewrite ?IH.
Qed.

(** A second [set] of a name replaces the first. *)
Lemma params_set_set {V} (k : string) (v v' : V) (l : list (string * V)) :
  params_set k v' (params_set k v l) = params_set k v' l.
Proof.
  induction l as [|[a b] l IH]; simpl.
  - by rewrite String.eqb_refl.
  - destruct (String.eqb a k) eqn:Ea; simpl.
    + by rewrite String.eqb_refl, filter_key_idem.
    + by rewrite Ea, IH.
Qed.

Lemma params_set_filter {V} (k k' : string) (v : V) (l : list (string * V)) :
  k <> k' ->
  List.filter (fun p => negb (String.eqb (fst p) k')) (params_set k v l)
  = params_set k v (List.filter (fun p => negb (String.eqb (fst p) k')) l).
Proof.
  intros Hk. assert (String.eqb k k' = false) as Hkk by by apply String.eqb_neq.
  induction l as [|[a b] l IH]; simpl.
  - by rewrite Hkk.
  - destruct (String.eqb a k) eqn:Ea.
    + apply String.eqb_eq in Ea as ->. simpl. rewrite Hkk. simpl.
      rewrite String.eqb_refl. by rewrite filter_key_comm.
    + simpl. destruct (String.eqb a k') eqn:Eb; simpl; rewrite ?Ea; by rewrite IH.
Qed.

(** A list in which [set k v] changes nothing stays so under the [set]
    of another name. *)
Lemma params_set_fixed {V} (k k' : string) (v v' : V) (l : list (string * V)) :
  k <> k' ->
  params_set k v l = l ->
  params_set k v (params_set k' v' l) = params_set k' v' l.
Proof.
  intros Hk. assert (String.eqb k k' = false) as Hkk by by apply String.eqb_neq.
  induction l as [|[a b] l IH]; [discriminate|]. simpl.
  destruct (String.eqb a k) eqn:Ea.
  - apply String.eqb_eq in Ea as ->. rewrite Hkk. intros [= -> Hf].
    simpl. rewrite String.eqb_refl. f_equal.
    rewrite params_set_filter by congruence. by rewrite Hf.
  - intros [= Hf]. destruct (String.eqb a k') eqn:Eb.
    + apply String.eqb_eq in Eb as ->. simpl. rewrite Ea. f_equal.
      rewrite <- (params_set_filter k k' v l Hk). by rewrite Hf.
    + simpl. rewrite Ea. f_equal. by apply IH.
Qed.

Lemma params_set_twice {V} (k1 k2 : string) (v1 v2 : V) (l : list (string * V)) :
  params_set k2 v2 (params_set k1 v1 (params_set k2 v2 (params_set k1 v1 l)))
  = params_set k2 v2 (params_set k1 v1 l).
Proof.
  destruct (decide (k1 = k2)) as [->|Hk].
  - by rewrite !params_set_set.
  - rewrite (params_set_fixed k1 k2 v1 v2); [apply params_set_set | done |].
    apply params_set_set.
Qed.

(** **** What [formatRequestUrl] appends *)

Lemma formatRequestUrl_tail opts (resolved : Completion NativeError URL.t) (entries : Params) :
  (let* formattedUrl := resolved in
   let formattedUrl :=
     {| URL.protocol := URL.protocol formattedUrl;
        URL.hostname := URL.hostname formattedUrl;
        URL.port := URL.port formattedUrl;
        URL.pathname := URL.pathname formattedUrl;
        URL.searchParams := (URL.searchParams formattedUrl ++ entries)%list;
        URL.hash := URL.hash formattedUrl |} in
   if truthy_bool (HTTPClient.isDev opts)
      && String.eqb (URL.hostname formattedUrl) "localhost"
      && String.eqb (URL.protocol formattedUrl) "https:"
   then
     Return {| URL.protocol := "http:";
               URL.hostname := URL.hostname formattedUrl;
               URL.port := URL.port formattedUrl;
               URL.pathname := URL.pathname formattedUrl;
               URL.searchParams := URL.searchParams formattedUrl;
               URL.hash := URL.hash formattedUrl |}
   else Return formattedUrl)
  = (let* u := resolved in Return (dev_scheme opts (add_params u entries))).
Proof.
  destruct resolved as [u|e]; [|reflexivity].
  unfold dev_scheme, add_params. cbn [bind URL.hostname URL.protocol].
  destruct (_ && _); reflexivity.
Qed.

Ltac split_on t :=
  match goal with
  | |- context [match t with _ => _ end] => destruct t
  end.

(** Outside the CDN host, [formatRequestUrl] sets the injected
    parameters on the search parameters, writes them to the caller's
    object when it set any, and appends them to the resolved URL. *)
Lemma formatRequestUrl_unfold env opts request protocol (h : Heap) :
  includes (url request) (HTTPClient.cdn (HTTPClient.domains opts)) = false ->
  HTTPClient.formatRequestUrl env opts request protocol h
  = (let* u := resolve env opts (url request) protocol in
     Return (dev_scheme opts
               (add_params u (apply_sets (injected opts request) (search_base request h)))),
     match search request, injected opts request with
     | Some (SearchParams l), _ :: _ =>
         <[l := apply_sets (injected opts request) (search_base request h)]> h
     | _, _ => h
     end).
Proof.
  intros Hcdn.
  unfold HTTPClient.formatRequestUrl, injected, search_base.
  rewrite Hcdn.
  fold (resolve env opts (url request) protocol).
  generalize (resolve env opts (url request) protocol). intros resolved.
  try split_on (accountToken request).
  all: try split_on (HTTPClient.accountTokenSearchParam opts).
  all: try match goal with
           | |- context [match ?s with EmptyString => _ | String _ _ => _ end] => destruct s
           end.
  all: try split_on (truthy_account (Some a)).
  all: try split_on (overrideDeviceType request).
  all: try match goal with
           | |- context [match ?s with EmptyString => _ | String _ _ => _ end] => destruct s
           end.
  all: try split_on (HTTPClient.overrideDeviceTypeHeaderName opts).
  all: try split_on (HTTPClient.trackingSearchParam opts).
  all: try match goal with
           | |- context [match ?s with EmptyString => _ | String _ _ => _ end] => destruct s
           end.
  all: destruct (search request) as [[r|l]|].
  all: cbn [search_set search_entries app apply_sets fold_left fst snd].
  all: rewrite ?lookup_insert_eq, ?insert_insert_eq.
  all: cbn [default from_option].
  all: rewrite formatRequestUrl_tail.
  all: reflexivity.
Qed.

Lemma formatRequestUrl_cdn_heap env opts request protocol (h : Heap) :
  includes (url request) (HTTPClient.cdn (HTTPClient.domains opts)) = true ->
  snd (HTTPClient.formatRequestUrl env opts request protocol h) = h
  /\ forall h', fst (HTTPClient.formatRequestUrl env opts request protocol h')
                = fst (HTTPClient.formatRequestUrl env opts request protocol h).
Proof.
  intros Hcdn. unfold HTTPClient.formatRequestUrl. rewrite Hcdn. split; reflexivity.
Qed.

Lemma injected_length opts request : length (injected opts request) <= 2.
Proof.
  unfold injected. rewrite length_app.
  repeat case_match; simpl; lia.
Qed.

Lemma apply_sets_idem (sets p : Params) :
  length sets <= 2 ->
  apply_sets sets (apply_sets sets p) = apply_sets sets p.
Proof.
  destruct sets as [|[k1 v1] [|[k2 v2] [|? ?]]]; simpl; intros Hl.
  - reflexivity.
  - apply params_set_set.
  - apply params_set_twice.
  - lia.
Qed.

Lemma formatRequestUrl_appended env opts request protocol h u :
  includes (url request) (HTTPClient.cdn (HTTPClient.domains opts)) = false ->
  fst (HTTPClient.formatRequestUrl env opts request protocol h) = Return u ->
  exists parsed,
    resolve env opts (url request) protocol = Return parsed
    /\ URL.searchParams u
       = (URL.searchParams parsed
          ++ apply_sets (injected opts request) (search_base request h))%list
    /\ URL.hostname u = URL.hostname parsed
    /\ URL.pathname u = URL.pathname parsed.
Proof.
  intros Hcdn. rewrite formatRequestUrl_unfold by exact Hcdn.
  destruct (resolve env opts (url request) protocol) as [parsed|e]; [|discriminate].
  cbn [fst bind]. intros [= <-]. exists parsed. split; [reflexivity|].
  unfold dev_scheme, add_params. destruct (_ && _); repeat split.
Qed.

Lemma formatRequestUrl_twice env opts request protocol h :
  HTTPClient.formatRequestUrl env opts request protocol
    (snd (HTTPClient.formatRequestUrl env opts request protocol h))
  = HTTPClient.formatRequestUrl env opts request protocol h.
Proof.
  destruct (includes (url request) (HTTPClient.cdn (HTTPClient.domains opts))) eqn:Hcdn.
  { destruct (formatRequestUrl_cdn_heap env opts request protocol h Hcdn) as [-> _].
    reflexivity. }
  rewrite !formatRequestUrl_unfold by exact Hcdn. cbn [snd].
  pose proof (injected_length opts request) as Hlen.
  unfold search_base.
  destruct (search request) as [[r|l]|]; try reflexivity.
  destruct (injected opts request) as [|p ps] eqn:Hi; [reflexivity|].
  rewrite lookup_insert_eq. cbn [from_option id].
  rewrite apply_sets_idem by exact Hlen. by rewrite insert_insert_eq.
Qed.

(** X11: building the URL a second time gives the same URL and
    leaves the caller's search parameters as the first time left
    them: a retry adds nothing to them. *)
Theorem formatRequestUrl_idempotent env opts request protocol h :
  HTTPClient.formatRequestUrl env opts request protocol
    (snd (HTTPClient.formatRequestUrl env opts request protocol h))
  = HTTPClient.formatRequestUrl env opts request protocol h.
Proof. apply formatRequestUrl_twice. Qed.

Lemma named_filter_out (k : string) (p : Params) :
  named k (List.filter (fun e => negb (String.eqb (fst e) k)) p) = [].
Proof.
  unfold named. induction p as [|[a b] p IH]; [reflexivity|]. simpl.
  destruct (String.eqb a k) eqn:Ea; simpl; rewrite ?Ea; exact IH.
Qed.

Lemma named_params_set_eq (k v : string) (p : Params) :
  named k (params_set k v p) = [(k, v)].
Proof.
  induction p as [|[a b] p IH]; simpl.
  - unfold named. simpl. by rewrite String.eqb_refl.
  - destruct (String.eqb a k) eqn:Ea.
    + unfold named at 1. simpl. rewrite String.eqb_refl. f_equal.
      apply (named_filter_out k).
    + unfold named. simpl. rewrite Ea. exact IH.
Qed.

Lemma named_params_set_ne (k k' v' : string) (p : Params) :
  k <> k' -> named k (params_set k' v' p) = named k p.
Proof.
  intros Hk. assert (String.eqb k' k = false) as Hkk by (apply String.eqb_neq; congruence).
  unfold named. induction p as [|[a b] p IH]; simpl.
  - by rewrite Hkk.
  - destruct (String.eqb a k') eqn:Ea.
    + apply String.eqb_eq in Ea as ->. simpl. rewrite Hkk.
      clear IH b. induction p as [|[a b] p IH]; [reflexivity|]. simpl.
      destruct (String.eqb a k') eqn:Ea; simpl.
      * apply String.eqb_eq in Ea as ->. by rewrite Hkk.
      * by rewrite IH.
    + simpl. by rewrite IH.
Qed.

(** X12: when the request has an account token and the client an
    account parameter, the built URL has, among the parameters it
    appends, exactly one with the name of the account parameter, and
    its value is the token as text: a parameter of that name that the
    caller passed is replaced. The names of the device parameter and
    of the tracking marker are taken to be other names. *)
Theorem formatRequestUrl_account_param env opts request protocol h u a name :
  includes (url request) (HTTPClient.cdn (HTTPClient.domains opts)) = false ->
  accountToken request = Some a ->
  truthy_account (Some a) = true ->
  HTTPClient.accountTokenSearchParam opts = Some name ->
  name <> EmptyString ->
  HTTPClient.overrideDeviceTypeHeaderName opts <> Some name ->
  HTTPClient.trackingSearchParam opts <> Some name ->
  fst (HTTPClient.formatRequestUrl env opts request protocol h) = Return u ->
  exists parsed appended,
    resolve env opts (url request) protocol = Return parsed
    /\ URL.searchParams u = (URL.searchParams parsed ++ appended)%list
    /\ named name appended = [(name, property_key a)].
Proof.
  intros Hcdn Ha Htruthy Hname Hne Hdev Htrack Hu.
  destruct (formatRequestUrl_appended _ _ _ _ _ _ Hcdn Hu) as (parsed & Hp & Hs & _).
  exists parsed, (apply_sets (injected opts request) (search_base request h)).
  split; [exact Hp|]. split; [exact Hs|].
  unfold injected. rewrite Ha, Hname, Htruthy.
  destruct name as [|c name]; [done|].
  unfold apply_sets. rewrite fold_left_app. cbn [fold_left].
  repeat case_match; cbn [fold_left];
    rewrite ?named_params_set_ne by congruence; apply named_params_set_eq.
Qed.

(** *** The orchestrator, whatever the transport answers *)

Section Invariants.

Variable env : Env.
Variable opts : HTTPClient.HTTPClientConstructorOptions.

(** What one call of [_httpRequest] does to the state. *)
Lemma _httpRequest_cases request st c st' :
  HTTPClient._httpRequest env opts request st = (c, st') ->
  HTTPClient.csrfTokens st' = HTTPClient.csrfTokens st
  /\ HTTPClient.heap st'
     = snd (HTTPClient.formatRequestUrl env opts request "https" (HTTPClient.heap st))
  /\ match fst (HTTPClient.formatRequestUrl env opts request "https" (HTTPClient.heap st)) with
     | Throw e => c = Throw e /\ HTTPClient.dispatched st' = HTTPClient.dispatched st
     | Return u =>
         exists init contentType newBody,
           HTTPClient.dispatched st' = (HTTPClient.dispatched st ++ [(u, init)])%list
           /\ init_headers init
              = HTTPClient.handleRequestHeaders opts request contentType newBody
     end.
Proof.
  unfold HTTPClient._httpRequest.
  destruct (HTTPClient.formatRequestUrl env opts request "https" (HTTPClient.heap st))
    as [[u|e] h]; cbn [fst snd].
  - destruct (match body request with
              | Some body => HTTPClient.formatBody env body
              | None => (None, None)
              end) as [newBody contentType].
    destruct (HTTPClient.transport env opts request _ _ _) as [raw|e];
      intros [= <- <-]; repeat split; eexists _, contentType, newBody; split; reflexivity.
  - intros [= <- <-]. repeat split.
Qed.

Lemma dispatch_cases request headers st c st' :
  dispatch env opts request headers st = (c, st') ->
  HTTPClient.csrfTokens st' = HTTPClient.csrfTokens st
  /\ HTTPClient.heap st'
     = snd (HTTPClient.formatRequestUrl env opts request "https" (HTTPClient.heap st))
  /\ match fst (HTTPClient.formatRequestUrl env opts request "https" (HTTPClient.heap st)) with
     | Throw e => c = Throw e /\ HTTPClient.dispatched st' = HTTPClient.dispatched st
     | Return u =>
         exists init contentType newBody,
           HTTPClient.dispatched st' = (HTTPClient.dispatched st ++ [(u, init)])%list
           /\ init_headers init
              = HTTPClient.handleRequestHeaders opts
                  (with_expect_headers request ExpectNone headers) contentType newBody
     end.
Proof. intros H. exact (_httpRequest_cases _ _ _ _ H). Qed.


(** X14: every typed response that [httpRequest] returns refers to
    the caller's request (not to the request of the dispatch, whose
    expected kind is none), carries the rate-limit snapshot of its own
    headers, and, unless the mode is none, is ok. *)
Theorem httpRequest_returned fuel request st r st' :
  HTTPClient.httpRequest env opts fuel request st = (Some (Return r), st') ->
  HTTPResponse._request r = request
  /\ HTTPResponse.ratelimit r = HTTPClient.parseRatelimitHeaders (HTTPResponse.headers r)
  /\ (errorHandling request <> Some ErrorHandlingNone ->
      status_ok (HTTPResponse.status r) = true).
Proof.
  unfold HTTPClient.httpRequest.
  generalize (retries request) as budget0.
  match goal with
  | |- context [HTTPClient.httpRequest_loop _ _ _ _ ?h _ _] => generalize h as headers
  end.
  revert st. induction fuel as [|fuel IH]; intros st headers budget0; [discriminate|].
  rewrite loop_S. destruct (dispatch env opts request headers st) as [[raw|e'] st1] eqn:Hd;
    [|discriminate].
  destruct (HTTPClient.csrf_rotation opts request raw); [apply IH|].
  destruct (HTTPClient.challenge_retry env opts request raw headers) as [[headers2|]|e2];
    [apply IH | | first [reflexivity | discriminate | done]].
  pose proof (dispatch_response _ _ _ _ _ _ _ Hd) as Hr.
  destruct (negb (bool_decide (errorHandling request = Some ErrorHandlingNone))
            && negb (status_ok (HTTPResponse.status raw))) eqn:Hc.
  { destruct (HTTPClient.retry_applies _ _); [apply IH | discriminate]. }
  unfold HTTPResponse.init.
  destruct (HTTPResponse.parseBody _ _ _ _) as [b|]; [|discriminate].
  cbn [bind HTTPClient.lift]. intros [= <- <-].
  cbn [HTTPResponse.new HTTPResponse._request HTTPResponse.ratelimit HTTPResponse.headers
       HTTPResponse.status status_ok].
  split; [reflexivity|]. split; [by rewrite Hr at 1|].
  intros Hmode. rewrite (bool_decide_eq_false_2 _ Hmode) in Hc. cbn [negb andb] in Hc.
  apply negb_false_iff in Hc. by rewrite Hr in Hc.
Qed.

Lemma loop_store_non_main request :
  HTTPClient.isRobloxApiRequest opts request = false ->
  forall fuel headers retries st,
    HTTPClient.csrfTokens
      (snd (HTTPClient.httpRequest_loop env opts fuel request headers retries st))
    = HTTPClient.csrfTokens st.
Proof.
  intros Hhost. induction fuel as [|fuel IH]; intros headers retries st; [reflexivity|].
  rewrite loop_S. destruct (dispatch env opts request headers st) as [[r|e] st1] eqn:Hd;
    destruct (dispatch_cases _ _ _ _ _ Hd) as [Htok _]; [|exact Htok].
  destruct (non_main_host_no_retry env opts request r headers Hhost) as [-> ->].
  destruct (_ && _); [|exact Htok].
  destruct (HTTPClient.retry_applies _ _); [by rewrite IH | exact Htok].
Qed.

(** X15: a request to a host other than the main one never writes the
    CSRF token store, whatever the transport answers and however long
    the call runs. *)
Theorem httpRequest_store_non_main fuel request st :
  HTTPClient.isRobloxApiRequest opts request = false ->
  HTTPClient.csrfTokens (snd (HTTPClient.httpRequest env opts fuel request st))
  = HTTPClient.csrfTokens st.
Proof. intros Hhost. unfold HTTPClient.httpRequest. by apply loop_store_non_main. Qed.

Lemma dispatch_log_length request headers st c st' :
  dispatch env opts request headers st = (c, st') ->
  length (HTTPClient.dispatched st') <= S (length (HTTPClient.dispatched st)).
Proof.
  intros Hd. destruct (dispatch_cases _ _ _ _ _ Hd) as (_ & _ & H).
  destruct (fst _).
  - destruct H as (init & ? & ? & -> & _). rewrite length_app. simpl. lia.
  - destruct H as [_ ->]. lia.
Qed.

Lemma retry_applies_budget retries n code :
  whole_budget retries n ->
  HTTPClient.retry_applies retries code = true ->
  exists m, n = S m /\ whole_budget (decrement <$> retries) m.
Proof.
  intros [Hbound [-> | [-> [-> | (z & Hz & ->)]]]]; unfold HTTPClient.retry_applies.
  - destruct n as [|m]; [discriminate|]. intros _. exists m. split; [reflexivity|].
    destruct (decrement_Num m Hbound) as (Hdec & _).
    cbn [fmap option_fmap option_map]. rewrite Hdec. split; [lia | by left].
  - discriminate.
  - unfold Num. cbn [truthy_number is_positive].
    destruct (z <? 0)%Z eqn:Hneg; cbn [negb andb].
    + by rewrite andb_false_r.
    + apply Z.ltb_ge in Hneg. replace z with 0%Z by lia. discriminate.
Qed.

Lemma loop_terminates_non_main request :
  HTTPClient.isRobloxApiRequest opts request = false ->
  forall n retries headers st fuel,
    whole_budget retries n ->
    n < fuel ->
    exists c st',
      HTTPClient.httpRequest_loop env opts fuel request headers retries st = (Some c, st')
      /\ length (HTTPClient.dispatched st') <= length (HTTPClient.dispatched st) + S n.
Proof.
  intros Hhost. induction n as [|n IH]; intros retries headers st fuel Hb Hf;
    (destruct fuel as [|fuel]; [lia|]);
    rewrite loop_S;
    destruct (dispatch env opts request headers st) as [[r|e] st1] eqn:Hd;
    pose proof (dispatch_log_length _ _ _ _ _ Hd) as Hlen;
    try (eexists _, _; split; [reflexivity | lia]);
    destruct (non_main_host_no_retry env opts request r headers Hhost) as [-> ->];
    (destruct (_ && _); [|eexists _, _; split; [reflexivity | lia]]);
    (destruct (HTTPClient.retry_applies _ _) eqn:Hr;
     [|eexists _, _; split; [reflexivity | lia]]);
    destruct (retry_applies_budget _ _ _ Hb Hr) as (m & Hm & Hb').
  - discriminate.
  - injection Hm as <-.
    destruct (IH (decrement <$> retries) headers st1 fuel) as (c & st' & Hrun & Hl);
      [exact Hb' | lia |].
    exists c, st'. split; [exact Hrun | lia].
Qed.

(** X16: a request to a host other than the main one, with a retry
    budget that is a whole number [n] of retries (a budget that is
    unset or not positive counting as 0): [httpRequest] ends within
    [n + 1] dispatches, by a return or by a throw, whatever the
    transport answers. *)
Theorem httpRequest_terminates_non_main request st fuel n :
  HTTPClient.isRobloxApiRequest opts request = false ->
  whole_budget (retries request) n ->
  n < fuel ->
  exists c st',
    HTTPClient.httpRequest env opts fuel request st = (Some c, st')
    /\ length (HTTPClient.dispatched st') <= length (HTTPClient.dispatched st) + S n.
Proof.
  intros Hhost Hb Hf. unfold HTTPClient.httpRequest.
  by eapply loop_terminates_non_main.
Qed.

(** X25: the budget [Infinity] never runs out. With a mode other than
    none and [retries = Infinity], when every dispatch yields a
    response that is not ok, has a status code of 500, 502, 503 or 504
    and answers no challenge, [httpRequest] never ends: after any
    number of dispatches it is still in its loop. *)
Theorem httpRequest_infinite_budget request st fuel :
  errorHandling request <> Some ErrorHandlingNone ->
  retries request = Some (Infinite false) ->
  (forall i, attempt_yields env opts request i (transient env opts request)) ->
  fst (HTTPClient.httpRequest env opts fuel request st) = None
  /\ length (HTTPClient.dispatched (snd (HTTPClient.httpRequest env opts fuel request st)))
     = length (HTTPClient.dispatched st) + fuel.
Proof.
  intros Hmode Hretries Hall. unfold HTTPClient.httpRequest. rewrite Hretries.
  match goal with
  | |- context [HTTPClient.httpRequest_loop _ _ _ _ ?h _ _] => generalize h as headers
  end.
  revert st. induction fuel as [|fuel IH]; intros st headers.
  - simpl. split; [reflexivity | lia].
  - rewrite loop_S.
    destruct (Hall (length (HTTPClient.dispatched st)) st headers eq_refl)
      as (response & st' & Hd & Htr).
    rewrite Hd, (transient_no_rotation _ _ _ _ Htr).
    destruct Htr as (Hok & Hcode & Hch). rewrite Hch, Hok.
    rewrite (bool_decide_eq_false_2 _ Hmode). cbn [negb andb].
    unfold HTTPClient.retry_applies. rewrite Hcode.
    cbn [truthy_number is_positive negb andb fmap option_fmap option_map decrement].
    apply dispatch_state in Hd as [_ Hlen].
    destruct (IH st' headers) as [IH1 IH2].
    split; [exact IH1|]. rewrite IH2. lia.
Qed.

End Invariants.

Section Effects.

Variable env : Env.
Variable opts : HTTPClient.HTTPClientConstructorOptions.

Lemma loop_heap request :
  forall fuel headers retries st,
    HTTPClient.heap (snd (HTTPClient.httpRequest_loop env opts fuel request headers retries st))
    = match fuel with
      | O => HTTPClient.heap st
      | S _ => snd (HTTPClient.formatRequestUrl env opts request "https" (HTTPClient.heap st))
      end.
Proof.
  induction fuel as [|fuel IH]; intros headers retries st; [reflexivity|].
  rewrite loop_S. destruct (dispatch env opts request headers st) as [[r|e] st1] eqn:Hd;
    destruct (dispatch_cases _ _ _ _ _ _ _ Hd) as (_ & Hheap & _); [|exact Hheap].
  assert (forall st2, HTTPClient.heap st2 = HTTPClient.heap st1 ->
            forall headers retries,
              HTTPClient.heap
                (snd (HTTPClient.httpRequest_loop env opts fuel request headers retries st2))
              = snd (HTTPClient.formatRequestUrl env opts request "https"
                       (HTTPClient.heap st))) as Hrec.
  { intros st2 H2 headers' retries'. rewrite IH, H2, Hheap. destruct fuel; [reflexivity|].
    apply (f_equal snd (formatRequestUrl_twice env opts request "https" _)). }
  destruct (HTTPClient.csrf_rotation opts request r); [by apply Hrec|].
  destruct (HTTPClient.challenge_retry env opts request r headers) as [[headers2|]|e2];
    [by apply Hrec | | exact Hheap].
  destruct (_ && _); [|exact Hheap].
  destruct (HTTPClient.retry_applies _ _); [by apply Hrec | exact Hheap].
Qed.

(** X17: however many dispatches a call of [httpRequest] makes, it
    leaves the caller's objects exactly as one call of
    [formatRequestUrl] leaves them: retries, CSRF rotations and
    challenge retries write nothing more. *)
Theorem httpRequest_heap fuel request st :
  HTTPClient.heap (snd (HTTPClient.httpRequest env opts (S fuel) request st))
  = snd (HTTPClient.formatRequestUrl env opts request "https" (HTTPClient.heap st)).
Proof. unfold HTTPClient.httpRequest. apply loop_heap. Qed.

(** X18: when the URL of the request cannot be built, [httpRequest]
    throws the error of the URL parser at once: the transport is not
    called and the token store is as before. *)
Theorem httpRequest_url_error fuel request st e :
  fst (HTTPClient.formatRequestUrl env opts request "https" (HTTPClient.heap st)) = Throw e ->
  exists st',
    HTTPClient.httpRequest env opts (S fuel) request st = (Some (Throw (Native e)), st')
    /\ HTTPClient.dispatched st' = HTTPClient.dispatched st
    /\ HTTPClient.csrfTokens st' = HTTPClient.csrfTokens st.
Proof.
  intros Hu. unfold HTTPClient.httpRequest. rewrite loop_S.
  match goal with
  | |- context [dispatch env opts request ?h st] =>
      destruct (dispatch env opts request h st) as [c st1] eqn:Hd
  end.
  destruct (dispatch_cases _ _ _ _ _ _ _ Hd) as (Htok & _ & H).
  rewrite Hu in H. destruct H as [-> Hlog].
  exists st1. repeat split; assumption.
Qed.

End Effects.

Section Tokens.

Variable env : Env.
Variable opts : HTTPClient.HTTPClientConstructorOptions.

(** The requests handed to the transport are only ever added to. *)
Lemma loop_log request :
  forall fuel headers retries st,
    exists new,
      HTTPClient.dispatched
        (snd (HTTPClient.httpRequest_loop env opts fuel request headers retries st))
      = (HTTPClient.dispatched st ++ new)%list.
Proof.
  induction fuel as [|fuel IH]; intros headers retries st.
  { exists []. simpl. by rewrite app_nil_r. }
  rewrite loop_S. destruct (dispatch env opts request headers st) as [c st1] eqn:Hd.
  assert (exists one, HTTPClient.dispatched st1 = (HTTPClient.dispatched st ++ one)%list)
    as [one Hone].
  { destruct (dispatch_cases _ _ _ _ _ _ _ Hd) as (_ & _ & H). destruct (fst _).
    - destruct H as (init & ? & ? & -> & _). eauto.
    - destruct H as [_ ->]. exists []. by rewrite app_nil_r. }
  assert (forall st2, HTTPClient.dispatched st2 = HTTPClient.dispatched st1 ->
            forall headers retries,
              exists new,
                HTTPClient.dispatched
                  (snd (HTTPClient.httpRequest_loop env opts fuel request headers retries st2))
                = (HTTPClient.dispatched st ++ new)%list) as Hrec.
  { intros st2 H2 headers' retries'. destruct (IH headers' retries' st2) as [new ->].
    rewrite H2, Hone. exists (one ++ new)%list. by rewrite <- app_assoc. }
  destruct c as [r|e]; [|by exists one].
  destruct (HTTPClient.csrf_rotation opts request r); [by apply Hrec|].
  destruct (HTTPClient.challenge_retry env opts request r headers) as [[headers2|]|e2];
    [by apply Hrec | | by exists one].
  destruct (_ && _); [|by exists one].
  destruct (HTTPClient.retry_applies _ _); [by apply Hrec | by exists one].
Qed.

(** X20: for a request to the main host that wants the CSRF token
    (the flag [includeCsrf], or a method other than GET when the flag
    is unset), when the store holds a token for the request and the
    URL can be built, the first request that [httpRequest] hands to
    the transport carries this token in the CSRF header. The signer is
    taken not to return this header. *)
Theorem httpRequest_sends_stored_token fuel request st t u :
  HTTPClient.isRobloxApiRequest opts request = true ->
  HTTPClient.wants_csrf request = true ->
  HTTPClient.getCsrfToken env opts (HTTPClient.csrfTokens st) (includeCredentials request)
    (accountToken request) = HTTPClient.TokenText (Some t) ->
  t <> EmptyString ->
  (forall generate newBody, HTTPClient.hbaClient opts = Some generate ->
     ~ In CSRF_TOKEN_HEADER_NAME
         (List.map (fun p => toLowerCase (fst p))
            (generate (url request) (method request) (includeCredentials request) newBody))) ->
  fst (HTTPClient.formatRequestUrl env opts request "https" (HTTPClient.heap st)) = Return u ->
  exists init,
    HTTPClient.dispatched (snd (HTTPClient.httpRequest env opts (S fuel) request st))
      !! length (HTTPClient.dispatched st) = Some (u, init)
    /\ Headers.get (init_headers init) CSRF_TOKEN_HEADER_NAME = Some t.
Proof.
  intros Hhost Hwants Htoken Ht Hsigner Hu.
  unfold HTTPClient.httpRequest. rewrite Hhost, Hwants, Htoken. cbn [andb].
  destruct t as [|c t]; [done|].
  set (headers := Headers.set (HTTPClient.initial_headers request) CSRF_TOKEN_HEADER_NAME
                    (String c t)).
  rewrite loop_S. destruct (dispatch env opts request headers st) as [res st1] eqn:Hd.
  destruct (dispatch_cases _ _ _ _ _ _ _ Hd) as (_ & _ & H). rewrite Hu in H.
  destruct H as (init & contentType & newBody & Hlog & Hinit).
  exists init.
  assert (Headers.get (init_headers init) CSRF_TOKEN_HEADER_NAME = Some (String c t)) as Hget.
  { rewrite Hinit, handleRequestHeaders_passes.
    - subst headers. apply Headers_get_set_eq.
    - discriminate.
    - discriminate.
    - intros generate Hg. by apply Hsigner. }
  split; [|exact Hget].
  assert (forall st2, HTTPClient.dispatched st2 = HTTPClient.dispatched st1 ->
            forall headers retries,
              HTTPClient.dispatched
                (snd (HTTPClient.httpRequest_loop env opts fuel request headers retries st2))
              !! length (HTTPClient.dispatched st) = Some (u, init)) as Hrec.
  { intros st2 H2 headers' retries'. destruct (loop_log request fuel headers' retries' st2)
      as [new ->].
    rewrite H2, Hlog, <- app_assoc. rewrite lookup_app_r by lia.
    by rewrite Nat.sub_diag. }
  assert (HTTPClient.dispatched st1 !! length (HTTPClient.dispatched st) = Some (u, init))
    as Hnow.
  { rewrite Hlog, lookup_app_r by lia. by rewrite Nat.sub_diag. }
  destruct res as [r|e]; [|exact Hnow].
  destruct (HTTPClient.csrf_rotation opts request r); [by apply Hrec|].
  destruct (HTTPClient.challenge_retry env opts request r headers) as [[headers2|]|e2];
    [by apply Hrec | | exact Hnow].
  destruct (_ && _); [|exact Hnow].
  destruct (HTTPClient.retry_applies _ _); [by apply Hrec | exact Hnow].
Qed.

Lemma loop_log_non_main request headers :
  HTTPClient.isRobloxApiRequest opts request = false ->
  (forall generate newBody, HTTPClient.hbaClient opts = Some generate ->
     ~ In CSRF_TOKEN_HEADER_NAME
         (List.map (fun p => toLowerCase (fst p))
            (generate (url request) (method request) (includeCredentials request) newBody))) ->
  forall fuel retries st,
    exists new,
      HTTPClient.dispatched
        (snd (HTTPClient.httpRequest_loop env opts fuel request headers retries st))
      = (HTTPClient.dispatched st ++ new)%list
      /\ Forall (fun d => Headers.get (init_headers (snd d)) CSRF_TOKEN_HEADER_NAME
                          = Headers.get headers CSRF_TOKEN_HEADER_NAME) new.
Proof.
  intros Hhost Hsigner. induction fuel as [|fuel IH]; intros retries st.
  { exists []. simpl. by rewrite app_nil_r. }
  rewrite loop_S. destruct (dispatch env opts request headers st) as [c st1] eqn:Hd.
  assert (exists one,
            HTTPClient.dispatched st1 = (HTTPClient.dispatched st ++ one)%list
            /\ Forall (fun d => Headers.get (init_headers (snd d)) CSRF_TOKEN_HEADER_NAME
                                = Headers.get headers CSRF_TOKEN_HEADER_NAME) one)
    as (one & Hone & Hall).
  { destruct (dispatch_cases _ _ _ _ _ _ _ Hd) as (_ & _ & H). destruct (fst _).
    - destruct H as (init & ct & newBody & -> & Hinit). eexists. split; [reflexivity|].
      constructor; [|constructor]. cbn [snd]. rewrite Hinit, handleRequestHeaders_passes.
      + reflexivity.
      + discriminate.
      + discriminate.
      + intros generate Hg. by apply Hsigner.
    - destruct H as [_ ->]. exists []. split; [by rewrite app_nil_r | constructor]. }
  destruct c as [r|e]; [|by exists one].
  destruct (non_main_host_no_retry env opts request r headers Hhost) as [-> ->].
  destruct (_ && _); [|by exists one].
  destruct (HTTPClient.retry_applies _ _); [|by exists one].
  destruct (IH (decrement <$> retries) st1) as (new & -> & Hnew).
  exists (one ++ new)%list. rewrite Hone, <- app_assoc. split; [reflexivity|].
  by apply Forall_app.
Qed.

(** X21: no token goes to another host: for a request to a host other
    than the main one, every request that [httpRequest] hands to the
    transport has in the CSRF header what the caller's own headers
    have there, and nothing when the caller gave none. The signer is
    taken not to return this header. *)
Theorem httpRequest_no_token_elsewhere fuel request st :
  HTTPClient.isRobloxApiRequest opts request = false ->
  (forall generate newBody, HTTPClient.hbaClient opts = Some generate ->
     ~ In CSRF_TOKEN_HEADER_NAME
         (List.map (fun p => toLowerCase (fst p))
            (generate (url request) (method request) (includeCredentials request) newBody))) ->
  exists new,
    HTTPClient.dispatched (snd (HTTPClient.httpRequest env opts fuel request st))
    = (HTTPClient.dispatched st ++ new)%list
    /\ Forall (fun d => Headers.get (init_headers (snd d)) CSRF_TOKEN_HEADER_NAME
                        = Headers.get (HTTPClient.initial_headers request)
                            CSRF_TOKEN_HEADER_NAME) new.
Proof.
  intros Hhost Hsigner. unfold HTTPClient.httpRequest. rewrite Hhost. cbn [andb].
  by apply loop_log_non_main.
Qed.

End Tokens.

(** *** Going round the loop again *)

Section Redispatches.

Variable env : Env.
Variable opts : HTTPClient.HTTPClientConstructorOptions.

Lemma loop_S_log request fuel headers retries st :
  exists new,
    HTTPClient.dispatched
      (snd (HTTPClient.httpRequest_loop env opts (S fuel) request headers retries st))
    = (HTTPClient.dispatched (snd (dispatch env opts request headers st)) ++ new)%list.
Proof.
  rewrite loop_S. destruct (dispatch env opts request headers st) as [c st1]. cbn [snd].
  assert (forall st2, HTTPClient.dispatched st2 = HTTPClient.dispatched st1 ->
            forall headers retries,
              exists new,
                HTTPClient.dispatched
                  (snd (HTTPClient.httpRequest_loop env opts fuel request headers retries st2))
                = (HTTPClient.dispatched st1 ++ new)%list) as Hrec.
  { intros st2 H2 headers' retries'.
    destruct (loop_log env opts request fuel headers' retries' st2) as [new ->].
    rewrite H2. by exists new. }
  assert (exists new : list (URL.t * RequestInit),
            HTTPClient.dispatched st1 = (HTTPClient.dispatched st1 ++ new)%list) as Hstop
    by (exists []; by rewrite app_nil_r).
  destruct c as [r|e]; [|exact Hstop].
  destruct (HTTPClient.csrf_rotation opts request r); [by apply Hrec|].
  destruct (HTTPClient.challenge_retry env opts request r headers) as [[headers2|]|e2];
    [by apply Hrec | | exact Hstop].
  destruct (_ && _); [|exact Hstop].
  destruct (HTTPClient.retry_applies _ _); [by apply Hrec | exact Hstop].
Qed.

(** After a dispatch that returned, a loop that goes on from the heap
    and the log of this dispatch sends a second request, to the same
    URL, with the headers assembled from the header collection that
    it goes on with. *)
Lemma second_dispatch request headers headers2 retries2 st response st1 st2 fuel :
  dispatch env opts request headers st = (Return response, st1) ->
  HTTPClient.heap st2 = HTTPClient.heap st1 ->
  HTTPClient.dispatched st2 = HTTPClient.dispatched st1 ->
  exists u init1 init2,
    HTTPClient.dispatched
      (snd (HTTPClient.httpRequest_loop env opts (S fuel) request headers2 retries2 st2))
      !! length (HTTPClient.dispatched st) = Some (u, init1)
    /\ HTTPClient.dispatched
         (snd (HTTPClient.httpRequest_loop env opts (S fuel) request headers2 retries2 st2))
         !! S (length (HTTPClient.dispatched st)) = Some (u, init2)
    /\ forall name,
        toLowerCase name <> "user-agent" ->
        toLowerCase name <> "content-type" ->
        unsigned opts request name ->
        Headers.get (init_headers init2) name = Headers.get headers2 name.
Proof.
  intros Hd Hheap Hlog.
  destruct (dispatch_cases env opts _ _ _ _ _ Hd) as (_ & Hh1 & H1).
  destruct (fst (HTTPClient.formatRequestUrl env opts request "https" (HTTPClient.heap st)))
    as [u|e] eqn:Hu; [|by destruct H1].
  destruct H1 as (init1 & contentType1 & newBody1 & Hlog1 & _).
  destruct (loop_S_log request fuel headers2 retries2 st2) as [new ->].
  destruct (dispatch env opts request headers2 st2) as [c2 st3] eqn:Hd2. cbn [snd].
  destruct (dispatch_cases env opts _ _ _ _ _ Hd2) as (_ & _ & H2).
  rewrite Hheap, Hh1 in H2.
  rewrite (formatRequestUrl_twice env opts request "https" (HTTPClient.heap st)) in H2.
  rewrite Hu in H2. destruct H2 as (init2 & contentType & newBody & -> & Hinit).
  exists u, init1, init2. rewrite Hlog, Hlog1, <- !app_assoc. cbn [app].
  split; [|split].
  - rewrite lookup_app_r by lia. by rewrite Nat.sub_diag.
  - rewrite lookup_app_r by lia.
    by replace (S (length (HTTPClient.dispatched st)) - length (HTTPClient.dispatched st))
      with 1 by lia.
  - intros name Hua Hct Hsigned. rewrite Hinit.
    rewrite handleRequestHeaders_passes; [reflexivity | exact Hua | exact Hct |].
    intros generate Hg. by apply Hsigned.
Qed.

(** C2: at any point of the loop, with any retry budget, a dispatch to
    the main host that returns the status 403 with the CSRF header
    makes the orchestrator store the token (in the anonymous slot, and
    in the slot of the account for a request with credentials), set
    it on the header collection and go round the loop again with the
    budget it had: the store holds the token when the round is over,
    and a second request goes to the transport, for the same URL,
    which carries the token in the CSRF header unless the signer
    returns a header of this name. *)
Theorem csrf_rotation_redispatches fuel request headers retries st response st' token :
  includes (url request) (HTTPClient.main (HTTPClient.domains opts)) = true ->
  dispatch env opts request headers st = (Return response, st') ->
  status_code (HTTPResponse.status response) = 403%Z ->
  Headers.get (HTTPResponse.headers response) CSRF_TOKEN_HEADER_NAME = Some token ->
  let tokens' :=
    HTTPClient.setCsrfToken env (HTTPClient.csrfTokens st) (Some token)
      (includeCredentials request) (accountToken request) in
  let headers' := Headers.set headers CSRF_TOKEN_HEADER_NAME token in
  let key := account_key (HTTPClient.account_or_default env (accountToken request)) in
  HTTPClient.httpRequest_loop env opts (S fuel) request headers retries st
  = HTTPClient.httpRequest_loop env opts fuel request headers' retries
      (HTTPClient.set_csrfTokens tokens' st')
  /\ HTTPClient.csrfTokens
       (snd (HTTPClient.httpRequest_loop env opts 1 request headers retries st))
     = tokens'
  /\ HTTPClient.ip tokens' = Some token
  /\ (includeCredentials request = Some true -> key <> "__proto__" ->
      HTTPClient.accounts tokens' !! key = Some (Some token))
  /\ Headers.get headers' CSRF_TOKEN_HEADER_NAME = Some token
  /\ exists u init1 init2,
      HTTPClient.dispatched
        (snd (HTTPClient.httpRequest_loop env opts (S (S fuel)) request headers retries st))
        !! length (HTTPClient.dispatched st) = Some (u, init1)
      /\ HTTPClient.dispatched
           (snd (HTTPClient.httpRequest_loop env opts (S (S fuel)) request headers retries st))
           !! S (length (HTTPClient.dispatched st)) = Some (u, init2)
      /\ (unsigned opts request CSRF_TOKEN_HEADER_NAME ->
          Headers.get (init_headers init2) CSRF_TOKEN_HEADER_NAME = Some token).
Proof.
  intros Hmain Hd Hcode Htoken tokens' headers' key.
  destruct (dispatch_state _ _ _ _ _ _ _ Hd) as [Htok Hlen].
  assert (HTTPClient.csrf_rotation opts request response = Some token) as Hrot.
  { unfold HTTPClient.csrf_rotation, HTTPClient.isRobloxApiRequest.
    rewrite Hmain, Hcode. simpl.
    unfold Headers.has. unfold Headers.get in Htoken.
    rewrite bool_decide_eq_true_2 by eauto. exact Htoken. }
  assert (forall fuel',
            HTTPClient.httpRequest_loop env opts (S fuel') request headers retries st
            = HTTPClient.httpRequest_loop env opts fuel' request headers' retries
                (HTTPClient.set_csrfTokens tokens' st')) as Hround.
  { intros fuel'. rewrite loop_S, Hd, Hrot, Htok. reflexivity. }
  split; [apply Hround|].
  split; [by rewrite Hround|].
  split; [reflexivity|].
  split.
  { intros Hc Hkey. subst tokens'. unfold HTTPClient.setCsrfToken. rewrite Hc.
    cbn [truthy_bool default from_option id HTTPClient.accounts].
    unfold HTTPClient.accounts_set. fold key.
    rewrite (proj2 (String.eqb_neq _ _) Hkey). apply lookup_insert_eq. }
  split; [apply Headers_get_set_eq|].
  rewrite Hround.
  destruct (second_dispatch request headers headers' retries st response st'
              (HTTPClient.set_csrfTokens tokens' st') fuel Hd eq_refl eq_refl)
    as (u & init1 & init2 & H1 & H2 & Hheaders).
  exists u, init1, init2. split; [exact H1|]. split; [exact H2|].
  intros Hsigned. rewrite Hheaders; [apply Headers_get_set_eq | done | done | exact Hsigned].
Qed.

(** X19: on the main host, when a response that is not ok carries a
    challenge and the caller's handler answers it, the loop goes round
    again with the three challenge headers set on the header
    collection (the metadata header last), with the retry budget and
    the token store as they were: a second request goes to the
    transport, for the same URL, and it carries the header collection
    but for the user agent, the content type and the headers that the
    signer returns. *)
Theorem challenge_redispatches fuel request headers retries st response st'
    handle parsedChallenge newChallenge :
  HTTPClient.isRobloxApiRequest opts request = true ->
  dispatch env opts request headers st = (Return response, st') ->
  HTTPClient.csrf_rotation opts request response = None ->
  status_ok (HTTPResponse.status response) = false ->
  handleChallenge request = Some handle ->
  parseChallengeHeaders env (HTTPResponse.headers response) = Some parsedChallenge ->
  handle parsedChallenge = Return (Some newChallenge) ->
  exists headers',
    HTTPClient.httpRequest_loop env opts (S fuel) request headers retries st
    = HTTPClient.httpRequest_loop env opts fuel request headers' retries st'
    /\ HTTPClient.csrfTokens
         (snd (HTTPClient.httpRequest_loop env opts 1 request headers retries st))
       = HTTPClient.csrfTokens st
    /\ Headers.get headers' (GENERIC_CHALLENGE_METADATA_HEADER env)
       = Some (challengeBase64Metadata newChallenge)
    /\ (toLowerCase (GENERIC_CHALLENGE_ID_HEADER env)
        <> toLowerCase (GENERIC_CHALLENGE_METADATA_HEADER env) ->
        Headers.get headers' (GENERIC_CHALLENGE_ID_HEADER env)
        = Some (challengeId newChallenge))
    /\ (toLowerCase (GENERIC_CHALLENGE_TYPE_HEADER env)
        <> toLowerCase (GENERIC_CHALLENGE_ID_HEADER env) ->
        toLowerCase (GENERIC_CHALLENGE_TYPE_HEADER env)
        <> toLowerCase (GENERIC_CHALLENGE_METADATA_HEADER env) ->
        Headers.get headers' (GENERIC_CHALLENGE_TYPE_HEADER env)
        = Some (challengeType newChallenge))
    /\ (forall name,
          toLowerCase name <> toLowerCase (GENERIC_CHALLENGE_TYPE_HEADER env) ->
          toLowerCase name <> toLowerCase (GENERIC_CHALLENGE_ID_HEADER env) ->
          toLowerCase name <> toLowerCase (GENERIC_CHALLENGE_METADATA_HEADER env) ->
          Headers.get headers' name = Headers.get headers name)
    /\ exists u init1 init2,
        HTTPClient.dispatched
          (snd (HTTPClient.httpRequest_loop env opts (S (S fuel)) request headers retries st))
          !! length (HTTPClient.dispatched st) = Some (u, init1)
        /\ HTTPClient.dispatched
             (snd (HTTPClient.httpRequest_loop env opts (S (S fuel)) request headers retries st))
             !! S (length (HTTPClient.dispatched st)) = Some (u, init2)
        /\ forall name,
            toLowerCase name <> "user-agent" ->
            toLowerCase name <> "content-type" ->
            unsigned opts request name ->
            Headers.get (init_headers init2) name = Headers.get headers' name.
Proof.
  intros Hhost Hd Hrot Hok Hh Hp Hn.
  destruct (dispatch_cases env opts _ _ _ _ _ Hd) as (Htok & _).
  pose (headers' :=
          Headers.set
            (Headers.set
               (Headers.set headers (GENERIC_CHALLENGE_TYPE_HEADER env)
                  (challengeType newChallenge))
               (GENERIC_CHALLENGE_ID_HEADER env) (challengeId newChallenge))
            (GENERIC_CHALLENGE_METADATA_HEADER env) (challengeBase64Metadata newChallenge)).
  exists headers'.
  assert (forall fuel',
            HTTPClient.httpRequest_loop env opts (S fuel') request headers retries st
            = HTTPClient.httpRequest_loop env opts fuel' request headers' retries st')
    as Hround.
  { intros fuel'. rewrite loop_S, Hd, Hrot. unfold HTTPClient.challenge_retry.
    rewrite Hhost, Hok, Hh, Hp, Hn. cbn [negb andb bind]. reflexivity. }
  split; [apply Hround|].
  split; [by rewrite Hround|].
  split; [apply Headers_get_set_eq|].
  split; [|split; [|split]].
  - intros H1. unfold headers'. rewrite Headers_get_set_ne by congruence.
    apply Headers_get_set_eq.
  - intros H1 H2. unfold headers'. rewrite !Headers_get_set_ne by congruence.
    apply Headers_get_set_eq.
  - intros name H1 H2 H3. unfold headers'. by rewrite !Headers_get_set_ne by congruence.
  - rewrite Hround.
    destruct (second_dispatch request headers headers' retries st response st' st' fuel
                Hd eq_refl eq_refl) as (u & init1 & init2 & H1 & H2 & Hheaders).
    exists u, init1, init2. split; [exact H1|]. split; [exact H2 | exact Hheaders].
Qed.

End Redispatches.

(** *** What one dispatch sends, and when the loop does not end *)

Section Dispatches.

Variable env : Env.
Variable opts : HTTPClient.HTTPClientConstructorOptions.

(** X22: the CSRF rotation has no bound. When every dispatch is
    answered by a response that rotates the token (403 from the main
    host with the CSRF header), the loop never ends: whatever the
    retry budget and the error-handling mode, after any number of
    dispatches no result has been produced and every one of them has
    been sent. *)
Theorem httpRequest_rotation_unbounded request st fuel :
  (forall i, attempt_yields env opts request i
               (fun response =>
                  is_Some (HTTPClient.csrf_rotation opts request response))) ->
  fst (HTTPClient.httpRequest env opts fuel request st) = None
  /\ length (HTTPClient.dispatched (snd (HTTPClient.httpRequest env opts fuel request st)))
     = length (HTTPClient.dispatched st) + fuel.
Proof.
  intros Hall. unfold HTTPClient.httpRequest.
  generalize (retries request) as budget.
  match goal with
  | |- context [HTTPClient.httpRequest_loop _ _ _ _ ?h _ _] => generalize h as headers
  end.
  revert st. induction fuel as [|fuel IH]; intros st headers budget.
  - simpl. split; [reflexivity | lia].
  - rewrite loop_S.
    destruct (Hall (length (HTTPClient.dispatched st)) st headers eq_refl)
      as (response & st' & Hd & [token Htoken]).
    rewrite Hd, Htoken. apply dispatch_state in Hd as [_ Hlen].
    match goal with
    | |- context [HTTPClient.httpRequest_loop _ _ _ _ ?h ?b ?s] =>
        destruct (IH s h b) as [IH1 IH2]
    end.
    split; [exact IH1|]. rewrite IH2. cbn [HTTPClient.dispatched HTTPClient.set_csrfTokens].
    lia.
Qed.

(** X23: a failure of the transport is not retried and not turned
    into a REST error. When the URL of the request resolves and the
    transport throws on the dispatch, [httpRequest] throws that very
    error after this one dispatch, whatever the retry budget and the
    error-handling mode, and the token store is as before. *)
Theorem httpRequest_network_error request st fuel u e :
  fst (HTTPClient.formatRequestUrl env opts request "https" (HTTPClient.heap st)) = Return u ->
  (forall init,
     HTTPClient.transport env opts request (length (HTTPClient.dispatched st)) u init
     = Throw e) ->
  exists st',
    HTTPClient.httpRequest env opts (S fuel) request st = (Some (Throw (Native e)), st')
    /\ length (HTTPClient.dispatched st') = S (length (HTTPClient.dispatched st))
    /\ HTTPClient.csrfTokens st' = HTTPClient.csrfTokens st.
Proof.
  intros Hu Ht. unfold HTTPClient.httpRequest.
  match goal with
  | |- context [HTTPClient.httpRequest_loop _ _ _ _ ?h _ _] => generalize h as headers
  end.
  intros headers. cbn [HTTPClient.httpRequest_loop]. unfold HTTPClient._httpRequest.
  rewrite formatRequestUrl_ignores_headers.
  destruct (HTTPClient.formatRequestUrl env opts request "https" (HTTPClient.heap st))
    as [c h]. cbn [fst] in Hu. subst c.
  destruct (match body (with_expect_headers request ExpectNone headers) with
            | Some body => HTTPClient.formatBody env body
            | None => (None, None)
            end) as [newBody contentType].
  change (HTTPClient.transport env opts (with_expect_headers request ExpectNone headers))
    with (HTTPClient.transport env opts request).
  cbn [HTTPClient.set_heap HTTPClient.dispatched]. rewrite Ht.
  eexists. split; [reflexivity|].
  cbn [HTTPClient.log_dispatch HTTPClient.dispatched HTTPClient.csrfTokens].
  rewrite length_app. simpl. split; [lia | reflexivity].
Qed.

End Dispatches.

(** *** Runs of the further properties *)

Lemma handleRequestHeaders_content_type_witness :
  Headers.get
    (HTTPClient.handleRequestHeaders Demo.signed_options
       (Demo.request_with_headers "example.com/x" [("content-type", VString "text/html")])
       (Some "application/json") None)
    "Content-Type"
  = Some "application/json".
Proof.
  apply (handleRequestHeaders_content_type Demo.signed_options
           (Demo.request_with_headers "example.com/x" [("content-type", VString "text/html")])
           "application/json" None).
  discriminate.
Defined.

Lemma handleRequestHeaders_signer_witness :
  Headers.get
    (HTTPClient.handleRequestHeaders Demo.signed_options
       (Demo.request_with_headers "example.com/x"
          [("X-Bound-Auth-Token", VString "caller")])
       None None)
    "X-Bound-Auth-Token"
  = Some "v2".
Proof.
  apply (handleRequestHeaders_signer Demo.signed_options
           (Demo.request_with_headers "example.com/x"
              [("X-Bound-Auth-Token", VString "caller")])
           None None Demo.signer
           [("x-bound-auth-token", "v1"); ("Content-Type", "text/plain")]
           "X-Bound-Auth-Token" "v2" []).
  - reflexivity.
  - reflexivity.
  - simpl. tauto.
  - right. reflexivity.
Defined.

Lemma handleRequestHeaders_frame_witness :
  Headers.get
    (HTTPClient.handleRequestHeaders Demo.signed_options
       (Demo.request_with_headers "example.com/x"
          [("Accept", VString "image/png"); ("X-Trace", VNull)])
       (Some "application/json") None)
    "accept"
  = Some "image/png"
  /\ Headers.get
       (HTTPClient.handleRequestHeaders Demo.signed_options
          (Demo.request_with_headers "example.com/x"
             [("Accept", VString "image/png"); ("X-Trace", VNull)])
          (Some "application/json") None)
       "x-trace"
     = None.
Proof.
  split.
  - rewrite (handleRequestHeaders_frame Demo.signed_options
               (Demo.request_with_headers "example.com/x"
                  [("Accept", VString "image/png"); ("X-Trace", VNull)])
               (Some "application/json") None "accept").
    + reflexivity.
    + discriminate.
    + discriminate.
    + intros generate [= <-]. simpl. intros [H|[H|[H|[]]]]; discriminate.
  - rewrite (handleRequestHeaders_frame Demo.signed_options
               (Demo.request_with_headers "example.com/x"
                  [("Accept", VString "image/png"); ("X-Trace", VNull)])
               (Some "application/json") None "x-trace").
    + reflexivity.
    + discriminate.
    + discriminate.
    + intros generate [= <-]. simpl. intros [H|[H|[H|[]]]]; discriminate.
Defined.

Lemma formatRequestUrl_dev_localhost_witness :
  exists u,
    fst (HTTPClient.formatRequestUrl (Demo.env None []) Demo.dev_options
           (Demo.request "localhost/status") "https" ∅) = Return u
    /\ URL.hostname u = "localhost"
    /\ URL.protocol u = "http:"
    /\ URL.protocol u <> "https:".
Proof.
  eexists. split; [reflexivity|]. split; [reflexivity|]. split; [reflexivity|].
  apply (formatRequestUrl_dev_localhost (Demo.env None []) Demo.dev_options
           (Demo.request "localhost/status") "https" ∅); reflexivity.
Defined.

Lemma formatRequestUrl_account_param_witness :
  exists u parsed appended,
    fst (HTTPClient.formatRequestUrl (Demo.env None [])
           (Demo.configure None None (Some "account"))
           (Demo.request_with_params "example.com/x" 0 "acct1") "https"
           {[ 0 := [("account", "old"); ("size", "large"); ("account", "older")] ]})
    = Return u
    /\ URL.searchParams u = (URL.searchParams parsed ++ appended)%list
    /\ named "account" appended = [("account", "acct1")].
Proof.
  edestruct (formatRequestUrl_account_param (Demo.env None [])
               (Demo.configure None None (Some "account"))
               (Demo.request_with_params "example.com/x" 0 "acct1") "https"
               {[ 0 := [("account", "old"); ("size", "large"); ("account", "older")] ]})
    as (parsed & appended & Hp & Hs & Hn).
  - reflexivity.
  - reflexivity.
  - reflexivity.
  - reflexivity.
  - discriminate.
  - discriminate.
  - discriminate.
  - reflexivity.
  - eexists _, parsed, appended. split; [reflexivity|]. split; [exact Hs | exact Hn].
Defined.


Lemma httpRequest_returned_witness :
  exists r st',
    HTTPClient.httpRequest
      (Demo.env None [Demo.respond 503 [] "busy"; Demo.respond 200 [] "hello"])
      Demo.options 2 (Demo.request_text_retrying "example.com/x" 2) Demo.state0
    = (Some (Return r), st')
    /\ HTTPResponse._request r = Demo.request_text_retrying "example.com/x" 2
    /\ HTTPResponse.body r = BodyText "hello"
    /\ status_ok (HTTPResponse.status r) = true.
Proof.
  eexists _, _. split; [vm_compute; reflexivity|].
  edestruct (httpRequest_returned
               (Demo.env None [Demo.respond 503 [] "busy"; Demo.respond 200 [] "hello"])
               Demo.options 2 (Demo.request_text_retrying "example.com/x" 2) Demo.state0)
    as (Hq & _ & Hok); [vm_compute; reflexivity|].
  split; [exact Hq|]. split; [reflexivity|]. apply Hok. discriminate.
Defined.

Lemma httpRequest_store_non_main_witness :
  HTTPClient.csrfTokens
    (snd (HTTPClient.httpRequest
            (Demo.env None [Demo.respond 403 [("x-csrf-token", "fresh")] ""])
            Demo.options 3 (Demo.request_post "example.com/x") Demo.state_with_token))
  = HTTPClient.csrfTokens Demo.state_with_token.
Proof.
  apply (httpRequest_store_non_main
           (Demo.env None [Demo.respond 403 [("x-csrf-token", "fresh")] ""])
           Demo.options 3 (Demo.request_post "example.com/x") Demo.state_with_token).
  reflexivity.
Defined.

Lemma httpRequest_terminates_non_main_witness :
  exists c st',
    HTTPClient.httpRequest (Demo.env None [Demo.respond 503 [] "busy"]) Demo.options 3
      (Demo.request_retrying "example.com/x" 2) Demo.state0
    = (Some c, st')
    /\ length (HTTPClient.dispatched st') <= 3.
Proof.
  apply (httpRequest_terminates_non_main (Demo.env None [Demo.respond 503 [] "busy"])
           Demo.options (Demo.request_retrying "example.com/x" 2) Demo.state0 3 2).
  - reflexivity.
  - split; [vm_compute; discriminate | left; reflexivity].
  - lia.
Defined.

Lemma httpRequest_infinite_budget_witness :
  fst (HTTPClient.httpRequest (Demo.repeating_env (Demo.respond 503 [] "busy")) Demo.options 40
         (Demo.request_retrying_forever "example.com/x") Demo.state0)
  = None
  /\ length (HTTPClient.dispatched
               (snd (HTTPClient.httpRequest (Demo.repeating_env (Demo.respond 503 [] "busy"))
                       Demo.options 40 (Demo.request_retrying_forever "example.com/x")
                       Demo.state0)))
     = 40.
Proof.
  apply (httpRequest_infinite_budget (Demo.repeating_env (Demo.respond 503 [] "busy"))
           Demo.options (Demo.request_retrying_forever "example.com/x") Demo.state0 40).
  - discriminate.
  - reflexivity.
  - intros i [tokens heap log] headers _.
    eexists _, _. split.
    + unfold dispatch, HTTPClient._httpRequest. cbn -[HTTPResponse.init]. reflexivity.
    + repeat split.
Defined.

Lemma httpRequest_url_error_witness :
  exists st',
    HTTPClient.httpRequest (Demo.env None [Demo.respond 200 [] "{}"]) Demo.options 1
      (Demo.request EmptyString) Demo.state0
    = (Some (Throw (Native (TypeError "https://"))), st')
    /\ HTTPClient.dispatched st' = []
    /\ HTTPClient.csrfTokens st' = HTTPClient.csrfTokens_init.
Proof.
  apply (httpRequest_url_error (Demo.env None [Demo.respond 200 [] "{}"]) Demo.options 0
           (Demo.request EmptyString) Demo.state0 (TypeError "https://")).
  reflexivity.
Defined.

Lemma challenge_redispatches_witness :
  exists u init2,
    HTTPClient.dispatched
      (snd (HTTPClient.httpRequest_loop
              (Demo.env None [Demo.challenged; Demo.respond 200 [] EmptyString])
              Demo.options 2 (Demo.request_challenged "apis.roblox.com/v1/join" Demo.solve)
              ∅ None Demo.state0))
      !! 1 = Some (u, init2)
    /\ Headers.get (init_headers init2) "rblx-challenge-id" = Some "c-1"
    /\ Headers.get (init_headers init2) "rblx-challenge-type" = Some "captcha"
    /\ Headers.get (init_headers init2) "rblx-challenge-metadata" = Some "solved".
Proof.
  pose (E := Demo.env None [Demo.challenged; Demo.respond 200 [] EmptyString]).
  let d := eval vm_compute in
    (dispatch E Demo.options (Demo.request_challenged "apis.roblox.com/v1/join" Demo.solve)
       ∅ Demo.state0) in
  match d with
  | (Return ?r, ?st') =>
      destruct (challenge_redispatches E Demo.options 0
                  (Demo.request_challenged "apis.roblox.com/v1/join" Demo.solve) ∅ None
                  Demo.state0 r st' Demo.solve
                  {| challengeType := "captcha"; challengeId := "c-1";
                     challengeBase64Metadata := "e30=" |}
                  {| challengeType := "captcha"; challengeId := "c-1";
                     challengeBase64Metadata := "solved" |})
        as (headers' & _ & _ & Hmeta & Hid & Htype & _ & u & init1 & init2 & _ & H2 & Hsent);
      [reflexivity | reflexivity | reflexivity | reflexivity | reflexivity | reflexivity
      | reflexivity |]
  end.
  exists u, init2. split; [exact H2|].
  assert (forall name, unsigned Demo.options
                         (Demo.request_challenged "apis.roblox.com/v1/join" Demo.solve) name)
    as Hunsigned by (intros name generate newBody [=]).
  split; [|split].
  - rewrite Hsent; [apply Hid | | | apply Hunsigned]; vm_compute; discriminate.
  - rewrite Hsent; [apply Htype | | | apply Hunsigned]; vm_compute; discriminate.
  - rewrite Hsent; [apply Hmeta | | | apply Hunsigned]; vm_compute; discriminate.
Defined.

Lemma csrf_rotation_redispatches_witness :
  exists u init2,
    HTTPClient.dispatched
      (snd (HTTPClient.httpRequest_loop
              (Demo.env None [Demo.respond 403 [("X-CSRF-TOKEN", "fresh")] EmptyString;
                              Demo.respond 200 [] EmptyString])
              Demo.options 2 (Demo.request "apis.roblox.com/v1/join") ∅ (Some (Num 0))
              Demo.state0))
      !! 1 = Some (u, init2)
    /\ Headers.get (init_headers init2) CSRF_TOKEN_HEADER_NAME = Some "fresh"
    /\ HTTPClient.ip
         (HTTPClient.csrfTokens
            (snd (HTTPClient.httpRequest_loop
                    (Demo.env None [Demo.respond 403 [("X-CSRF-TOKEN", "fresh")] EmptyString;
                                    Demo.respond 200 [] EmptyString])
                    Demo.options 1 (Demo.request "apis.roblox.com/v1/join") ∅ (Some (Num 0))
                    Demo.state0)))
       = Some "fresh".
Proof.
  pose (E := Demo.env None [Demo.respond 403 [("X-CSRF-TOKEN", "fresh")] EmptyString;
                            Demo.respond 200 [] EmptyString]).
  let d := eval vm_compute in
    (dispatch E Demo.options (Demo.request "apis.roblox.com/v1/join") ∅ Demo.state0) in
  match d with
  | (Return ?r, ?st') =>
      destruct (csrf_rotation_redispatches E Demo.options 0
                  (Demo.request "apis.roblox.com/v1/join") ∅ (Some (Num 0)) Demo.state0 r st'
                  "fresh")
        as (_ & Hstore & Hip & _ & _ & u & init1 & init2 & _ & H2 & Hsent);
      [reflexivity | reflexivity | reflexivity | reflexivity |]
  end.
  exists u, init2. split; [exact H2|]. split.
  - apply Hsent. intros generate newBody [=].
  - fold E. rewrite Hstore. exact Hip.
Defined.

Lemma httpRequest_sends_stored_token_witness :
  exists u init,
    HTTPClient.dispatched
      (snd (HTTPClient.httpRequest (Demo.env None [Demo.respond 200 [] ""]) Demo.options 1
              (Demo.request_post "apis.roblox.com/v1/x") Demo.state_with_token))
      !! 0 = Some (u, init)
    /\ URL.hostname u = "apis.roblox.com"
    /\ Headers.get (init_headers init) CSRF_TOKEN_HEADER_NAME = Some "stored".
Proof.
  edestruct (httpRequest_sends_stored_token (Demo.env None [Demo.respond 200 [] ""])
               Demo.options 0 (Demo.request_post "apis.roblox.com/v1/x")
               Demo.state_with_token "stored")
    as (init & Hd & Ht).
  - reflexivity.
  - reflexivity.
  - reflexivity.
  - discriminate.
  - intros generate newBody [=].
  - reflexivity.
  - eexists _, init. split; [exact Hd|]. split; [reflexivity | exact Ht].
Defined.

Lemma httpRequest_no_token_elsewhere_witness :
  exists new,
    HTTPClient.dispatched
      (snd (HTTPClient.httpRequest
              (Demo.env None [Demo.respond 403 [("x-csrf-token", "fresh")] ""])
              Demo.options 3 (Demo.request_post "example.com/x") Demo.state_with_token))
    = (HTTPClient.dispatched Demo.state_with_token ++ new)%list
    /\ Forall (fun d => Headers.get (init_headers (snd d)) CSRF_TOKEN_HEADER_NAME = None) new.
Proof.
  destruct (httpRequest_no_token_elsewhere
              (Demo.env None [Demo.respond 403 [("x-csrf-token", "fresh")] ""])
              Demo.options 3 (Demo.request_post "example.com/x") Demo.state_with_token)
    as (new & Hd & Hall).
  - reflexivity.
  - intros generate newBody [=].
  - exists new. split; [exact Hd | exact Hall].
Defined.

Lemma setCsrfToken_anonymous_witness :
  HTTPClient.getCsrfToken (Demo.env None []) Demo.options
    (HTTPClient.setCsrfToken (Demo.env None [])
       (HTTPClient.setCsrfToken (Demo.env None []) HTTPClient.csrfTokens_init
          (Some "first") (Some true) (Some (AccountString "acct1")))
       (Some "second") (Some false) (Some (AccountString "acct1")))
    (Some true) (Some (AccountString "acct1"))
  = HTTPClient.TokenText (Some "first")
  /\ HTTPClient.getCsrfToken (Demo.env None []) Demo.options
       (HTTPClient.setCsrfToken (Demo.env None [])
          (HTTPClient.setCsrfToken (Demo.env None []) HTTPClient.csrfTokens_init
             (Some "first") (Some true) (Some (AccountString "acct1")))
          (Some "second") (Some false) (Some (AccountString "acct1")))
       None (Some (AccountNumber 7))
     = HTTPClient.TokenText (Some "second").
Proof.
  destruct (setCsrfToken_anonymous (Demo.env None []) Demo.options
              (HTTPClient.setCsrfToken (Demo.env None []) HTTPClient.csrfTokens_init
                 (Some "first") (Some true) (Some (AccountString "acct1")))
              (Some "second") (Some (AccountString "acct1"))) as [Hauth Hanon].
  split.
  - rewrite (Hauth (Some false) (Some (AccountString "acct1")) eq_refl). reflexivity.
  - apply (Hanon (Some false) (Some (AccountNumber 7))).
Defined.

Lemma httpRequest_rotation_unbounded_witness :
  fst (HTTPClient.httpRequest
         (Demo.repeating_env (Demo.respond 403 [("x-csrf-token", "fresh")] ""))
         Demo.options 40 (Demo.request_retrying "apis.roblox.com/v1/x" 0) Demo.state0)
  = None
  /\ length (HTTPClient.dispatched
               (snd (HTTPClient.httpRequest
                       (Demo.repeating_env (Demo.respond 403 [("x-csrf-token", "fresh")] ""))
                       Demo.options 40 (Demo.request_retrying "apis.roblox.com/v1/x" 0)
                       Demo.state0)))
     = 40.
Proof.
  apply (httpRequest_rotation_unbounded
           (Demo.repeating_env (Demo.respond 403 [("x-csrf-token", "fresh")] ""))
           Demo.options (Demo.request_retrying "apis.roblox.com/v1/x" 0) Demo.state0 40).
  intros i [tokens heap log] headers _.
  eexists _, _. split.
  - unfold dispatch, HTTPClient._httpRequest. cbn -[HTTPResponse.init]. reflexivity.
  - exists "fresh". reflexivity.
Defined.

Lemma httpRequest_network_error_witness :
  exists st',
    HTTPClient.httpRequest (Demo.env None []) Demo.options 3
      (Demo.request_retrying "example.com/x" 2) Demo.state0
    = (Some (Throw (Native (NetworkError "no response"))), st')
    /\ length (HTTPClient.dispatched st') = 1
    /\ HTTPClient.csrfTokens st' = HTTPClient.csrfTokens_init.
Proof.
  eapply (httpRequest_network_error (Demo.env None []) Demo.options
            (Demo.request_retrying "example.com/x" 2) Demo.state0 2).
  - reflexivity.
  - intros init. reflexivity.
Defined.
